(** * Secure-Flow: the behavioural risk engine of [model/secureFlow.py]

    A shallow embedding of [BehavioralAuthModel] and the properties of its
    feature extraction, baseline profiling, risk scoring and decision
    classification.

    Modelling conventions.
    - Python numbers (int, float, numpy float64) are rationals [Q];
      infinities and NaN are outside the model.  Scores are compared with
      [Qeq], [Qle] and [Qlt].  The rounding reductions [np.mean] and
      [np.std] are left uninterpreted (class [Numpy]); examples are
      evaluated with the unrounded statistics [exact_numpy].
    - A Python value that can occur in an observation is a [pyval]: a number,
      a string, [None] or a dict with string keys (a [gmap]).
    - The [features] dict of [extract_features] is insertion ordered and is
      iterated in that order, so it is an association list.
    - Raising is an explicit [result]; [datetime.now()] is an explicit
      argument holding the values that were read. *)

From Stdlib Require Import QArith Qabs Qround Lqa ZArith.
From stdpp Require Import gmap strings list fin_maps.

Local Open Scope Q_scope.
Local Open Scope string_scope.

(** ** Python values and exceptions *)

#[warnings="-register-all"]
Inductive pyval :=
| VNum (q : Q)
| VStr (s : string)
| VNone
| VDict (d : gmap string pyval).

Inductive exn :=
| AttributeError      (* [.get] on something that is not a dict *)
| TypeError           (* arithmetic or ordering on a non-number, unpacking a float *)
| ZeroDivisionError
| EstimatorError.     (* raised inside a fitted scikit-learn object *)

Inductive result (A : Type) :=
| Ok (a : A)
| Raise (e : exn).
Arguments Ok {A} a.
Arguments Raise {A} e.

(** The error monad, with stdpp's [x ← c; k] notation. *)
#[global] Instance result_ret : MRet result := λ A a, Ok a.
#[global] Instance result_bind : MBind result := λ A B k c,
  match c with Ok a => k a | Raise e => Raise e end.

Definition raises {A} (c : result A) : Prop := ∃ e, c = Raise e.

(** [x.get(k, dflt)]: only a dict has the method. *)
Definition py_get (x : pyval) (k : string) (dflt : pyval) : result pyval :=
  match x with
  | VDict d => Ok (default dflt (d !! k))
  | _ => Raise AttributeError
  end.

(** ** Feature extraction *)

(** The values of [datetime.now().hour] and [datetime.now().weekday()] read
    by one call of [extract_features]. *)
Record clock := { hour : Z; weekday : Z }.

Definition features := list (string * pyval).

Definition empty_dict : pyval := VDict ∅.

Definition extract_features (now : clock) (user_data : pyval) : result features :=
  (* 1. Behavioral Profiling Features *)
  login_frequency ← py_get user_data "daily_login_count" (VNum 0);
  session_duration ← py_get user_data "session_time" (VNum 0);
  let hour_of_day := VNum (inject_Z (hour now)) in
  let day_of_week := VNum (inject_Z (weekday now)) in
  (* 2. Keystroke & Gesture Dynamics *)
  keystroke_data ← py_get user_data "keystroke_dynamics" empty_dict;
  avg_typing_speed ← py_get keystroke_data "avg_speed" (VNum 0);
  typing_rhythm_variance ← py_get keystroke_data "rhythm_variance" (VNum 0);
  tap_pressure ← py_get keystroke_data "avg_pressure" (VNum 0);
  swipe_velocity ← py_get keystroke_data "swipe_velocity" (VNum 0);
  (* 3. Navigation & Session Flow *)
  navigation ← py_get user_data "navigation_pattern" empty_dict;
  typical_screen_sequence ← py_get navigation "screen_sequence_score" (VNum 0);
  direct_to_sensitive ← py_get navigation "direct_sensitive_access" (VNum 0);
  page_dwell_time ← py_get navigation "avg_dwell_time" (VNum 0);
  (* 4. Transaction Habits *)
  transaction ← py_get user_data "transaction_data" empty_dict;
  transaction_amount ← py_get transaction "amount" (VNum 0);
  payee_familiarity ← py_get transaction "payee_score" (VNum 1);
  transaction_frequency ← py_get transaction "frequency" (VNum 0);
  balance_check_frequency ← py_get transaction "balance_checks" (VNum 0);
  (* 5. Location & Context *)
  location ← py_get user_data "location_data" empty_dict;
  location_familiarity ← py_get location "familiarity_score" (VNum 1);
  wifi_pattern_match ← py_get location "wifi_match" (VNum 1);
  bluetooth_devices ← py_get location "bluetooth_count" (VNum 0);
  travel_distance ← py_get location "travel_distance" (VNum 0);
  (* 6. Hand-Tremor Micro Signature *)
  biometric ← py_get user_data "biometric_data" empty_dict;
  tremor_signature ← py_get biometric "tremor_match_score" (VNum 1);
  gyroscope_pattern ← py_get biometric "gyro_similarity" (VNum 1);
  accelerometer_pattern ← py_get biometric "accel_similarity" (VNum 1);
  (* 7. Secret Gesture *)
  panic_gesture_triggered ← py_get user_data "panic_gesture" (VNum 0);
  (* 8. Decoy Screen Response *)
  decoy_interaction_normal ← py_get user_data "decoy_response" (VNum 1);
  Ok [ ("login_frequency", login_frequency);
       ("session_duration", session_duration);
       ("hour_of_day", hour_of_day);
       ("day_of_week", day_of_week);
       ("avg_typing_speed", avg_typing_speed);
       ("typing_rhythm_variance", typing_rhythm_variance);
       ("tap_pressure", tap_pressure);
       ("swipe_velocity", swipe_velocity);
       ("typical_screen_sequence", typical_screen_sequence);
       ("direct_to_sensitive", direct_to_sensitive);
       ("page_dwell_time", page_dwell_time);
       ("transaction_amount", transaction_amount);
       ("payee_familiarity", payee_familiarity);
       ("transaction_frequency", transaction_frequency);
       ("balance_check_frequency", balance_check_frequency);
       ("location_familiarity", location_familiarity);
       ("wifi_pattern_match", wifi_pattern_match);
       ("bluetooth_devices", bluetooth_devices);
       ("travel_distance", travel_distance);
       ("tremor_signature", tremor_signature);
       ("gyroscope_pattern", gyroscope_pattern);
       ("accelerometer_pattern", accelerometer_pattern);
       ("panic_gesture_triggered", panic_gesture_triggered);
       ("decoy_interaction_normal", decoy_interaction_normal) ].

(** The keys of the dict built by [extract_features], in insertion order. *)
Definition feature_names : list string :=
  [ "login_frequency"; "session_duration"; "hour_of_day"; "day_of_week";
    "avg_typing_speed"; "typing_rhythm_variance"; "tap_pressure";
    "swipe_velocity"; "typical_screen_sequence"; "direct_to_sensitive";
    "page_dwell_time"; "transaction_amount"; "payee_familiarity";
    "transaction_frequency"; "balance_check_frequency";
    "location_familiarity"; "wifi_pattern_match"; "bluetooth_devices";
    "travel_distance"; "tremor_signature"; "gyroscope_pattern";
    "accelerometer_pattern"; "panic_gesture_triggered";
    "decoy_interaction_normal" ].

(** [features.get(k, dflt)] and [features[k]] on the ordered dict. *)
Fixpoint assoc (k : string) (fs : features) : option pyval :=
  match fs with
  | [] => None
  | (k', v) :: fs' => if decide (k' = k) then Some v else assoc k fs'
  end.

Definition features_get (fs : features) (k : string) (dflt : pyval) : pyval :=
  default dflt (assoc k fs).

(** ** Numbers *)

Definition Qltb (a b : Q) : bool := negb (Qle_bool b a).

(** Python's two-argument [max] and [min]: the first argument is kept unless
    the second is strictly greater (respectively smaller). *)
Definition py_max (a b : Q) : Q := if Qltb a b then b else a.
Definition py_min (a b : Q) : Q := if Qltb b a then b else a.

(** [a / b] on numbers. *)
Definition py_div (a b : Q) : result Q :=
  if Qeq_bool b 0 then Raise ZeroDivisionError else Ok (a / b).

(** A number operand of [-], [<] or of a numpy reduction. *)
Definition as_float (v : pyval) : option Q :=
  match v with VNum q => Some q | _ => None end.

Definition py_float (v : pyval) : result Q :=
  match v with VNum q => Ok q | _ => Raise TypeError end.

(** [v == 1]: [False], not an error, on a value that is not a number. *)
Definition py_eq_1 (v : pyval) : bool :=
  match v with VNum q => Qeq_bool q 1 | _ => false end.

(** [v < c] for a float constant [c]. *)
Definition py_lt (v : pyval) (c : Q) : result bool :=
  q ← py_float v; Ok (Qltb q c).

(** *** The numpy reductions of [build_user_profile], on a non-empty sample *)

(** [np.mean] and [np.std] are computed in float64 and round.  The model
    does not fix how: a [Numpy] gives their values, and the properties of
    profile building are proved for every [Numpy].  [np.min], [np.max] and
    [np.percentile] pick sample values or interpolate between two of them
    and are written out below. *)
Class Numpy := {
  np_mean : list Q → Q;
  np_std : list Q → Q
}.

(** The unrounded statistics: the arithmetic mean, and the population
    standard deviation [sqrt(mean(abs(x - x.mean())**2))] with a square
    root rounded down to a multiple of [1 / (Qden q * 2^52)].  They are the
    [Numpy] the examples are evaluated with.  On the samples of the
    examples (two equal values, the values 0 and 1, the values 200 and 400,
    any number of 0s or of 1s) every float64 operation of [np.mean] and
    [np.std] is exact, so numpy returns these values. *)
Definition Qsum (xs : list Q) : Q := foldr Qplus 0 xs.

Definition exact_mean (xs : list Q) : Q :=
  Qsum xs / inject_Z (Z.of_nat (length xs)).

Definition exact_sqrt (q : Q) : Q :=
  Qmake (Z.sqrt (Qnum q * Zpos (Qden q) * 4 ^ 52)) (Qden q * 2 ^ 52).

Definition exact_std (xs : list Q) : Q :=
  let m := exact_mean xs in
  exact_sqrt (exact_mean (map (λ x, Qabs (x - m) ^ 2) xs)).

#[global] Instance exact_numpy : Numpy :=
  {| np_mean := exact_mean; np_std := exact_std |}.

Definition np_min (xs : list Q) : Q :=
  match xs with [] => 0 | x :: xs' => foldl py_min x xs' end.

Definition np_max (xs : list Q) : Q :=
  match xs with [] => 0 | x :: xs' => foldl py_max x xs' end.

Fixpoint insert_sorted (x : Q) (xs : list Q) : list Q :=
  match xs with
  | [] => [x]
  | y :: ys => if Qle_bool x y then x :: xs else y :: insert_sorted x ys
  end.

Definition np_sort (xs : list Q) : list Q := foldr insert_sorted [] xs.

(** [np.percentile(xs, p)] with the default linear interpolation between the
    two order statistics around the virtual index [(n - 1) * p / 100]. *)
Definition np_percentile (xs : list Q) (p : Q) : Q :=
  let sorted := np_sort xs in
  let n := length xs in
  let index := inject_Z (Z.of_nat (n - 1)) * p / 100 in
  let lo := Z.to_nat (Qfloor index) in
  let hi := Nat.min (lo + 1) (n - 1) in
  let frac := index - inject_Z (Z.of_nat lo) in
  let a := nth lo sorted 0 in
  let b := nth hi sorted 0 in
  a + (b - a) * frac.

(** ** Baseline profiles *)

Record baseline := {
  mean : Q;
  std : Q;
  min : Q;
  max : Q;
  percentile_25 : Q;
  percentile_75 : Q
}.

Record profile := {
  user_id : string;
  baseline_features : gmap string baseline;
  behavioral_patterns : gmap string pyval;
  risk_factors : list string
}.

(** ** The model object *)

(** Fitted scikit-learn objects are opaque: each method maps the row it is
    given to the scalar the caller indexes out of its answer, or raises. *)
Definition row := list pyval.

Record RandomForestClassifier := {
  rf_predict : row → result Q;          (* [predict(x)[0]] *)
  rf_predict_proba : row → result Q     (* [predict_proba(x)[0][1]] *)
}.

Record IsolationForest := {
  if_predict : row → result Q;          (* [predict(x)[0]] *)
  if_decision_function : row → result Q (* [decision_function(x)[0]] *)
}.

Record StandardScaler := {
  transform : row → result row
}.

Record model_table := {
  random_forest : option RandomForestClassifier;
  isolation_forest : option IsolationForest
}.

Record thresholds := { low : Q; medium : Q; high : Q }.

Record BehavioralAuthModel := {
  models : model_table;
  scalers : option StandardScaler;      (* the entry ['main'] *)
  user_profiles : gmap string profile;
  risk_thresholds : thresholds
}.

(** [BehavioralAuthModel.__init__] *)
Definition init : BehavioralAuthModel := {|
  models := {| random_forest := None; isolation_forest := None |};
  scalers := None;
  user_profiles := ∅;
  risk_thresholds := {| low := 0.3; medium := 0.6; high := 0.8 |}
|}.

(** ** Profile building *)

(** The body of the inner loop: create the sample list on first sight of the
    key, then append. *)
Definition append_value (samples : gmap string (list pyval))
    (item : string * pyval) : gmap string (list pyval) :=
  <[item.1 := (default [] (samples !! item.1) ++ [item.2])%list]> samples.

(** The first loop.  Each historical session comes with the clock values read
    while its features are extracted. *)
Fixpoint collect_samples (historical_data : list (clock * pyval))
    (samples : gmap string (list pyval)) : result (gmap string (list pyval)) :=
  match historical_data with
  | [] => Ok samples
  | (now, session) :: rest =>
      fs ← extract_features now session;
      collect_samples rest (foldl append_value samples fs)
  end.

(** [np.array(values)] followed by the six reductions; a sample holding
    anything but numbers cannot be reduced. *)
Definition np_array (values : list pyval) : option (list Q) :=
  mapM as_float values.

Section Profiling.
Context {np : Numpy}.

Definition statistics (values : list pyval) : option baseline :=
  xs ← np_array values;
  Some {| mean := np_mean xs;
          std := np_std xs;
          min := np_min xs;
          max := np_max xs;
          percentile_25 := np_percentile xs 25;
          percentile_75 := np_percentile xs 75 |}.

(** The second loop: every sample list is replaced by its statistics. *)
Definition compute_statistics (samples : gmap string (list pyval))
    : result (gmap string baseline) :=
  if decide (map_Forall (λ _ values, is_Some (statistics values)) samples)
  then Ok (omap statistics samples)
  else Raise TypeError.

Definition build_user_profile (self : BehavioralAuthModel) (uid : string)
    (historical_data : list (clock * pyval))
    : result (profile * BehavioralAuthModel) :=
  samples ← collect_samples historical_data ∅;
  stats ← compute_statistics samples;
  let p := {| user_id := uid;
              baseline_features := stats;
              behavioral_patterns := ∅;
              risk_factors := [] |} in
  Ok (p, {| models := models self;
            scalers := scalers self;
            user_profiles := <[uid := p]> (user_profiles self);
            risk_thresholds := risk_thresholds self |}).

End Profiling.

(** ** Risk scoring *)

(** A risk factor.  [Deviation feature z] is the string
    [f"{feature}: {z:.2f} std devs"]; [Message text] is a fixed string. *)
Inductive factor :=
| Deviation (feature : string) (z_score : Q)
| Message (text : string).

(** The running [(total_deviation, risk_factors)] of [calculate_risk_score]. *)
Definition tally := (Q * list factor)%type.

(** One iteration of the loop over [current_features.items()]. *)
Definition deviation_step (bf : gmap string baseline) (acc : tally)
    (item : string * pyval) : result tally :=
  match bf !! item.1 with
  | None => Ok acc
  | Some b =>
      value ← py_float item.2;
      let sd := py_max (std b) 0.000001 in   (* 1e-6 *)
      z_score ← py_div (Qabs (value - mean b)) sd;
      if Qltb 2 z_score
      then Ok (acc.1 + z_score, (acc.2 ++ [Deviation item.1 z_score])%list)
      else Ok acc
  end.

Fixpoint deviations (bf : gmap string baseline) (fs : features) (acc : tally)
    : result tally :=
  match fs with
  | [] => Ok acc
  | item :: rest => acc' ← deviation_step bf acc item; deviations bf rest acc'
  end.

Definition boost (weight : Q) (text : string) (acc : tally) : tally :=
  (acc.1 + weight, (acc.2 ++ [Message text])%list).

(** The four specific high-risk indicators, in source order. *)
Definition indicators (fs : features) (acc : tally) : result tally :=
  let acc :=
    if py_eq_1 (features_get fs "panic_gesture_triggered" (VNum 0))
    then boost 5 "Panic gesture detected" acc else acc in
  let acc :=
    if py_eq_1 (features_get fs "direct_to_sensitive" (VNum 0))
    then boost 3 "Direct access to sensitive area" acc else acc in
  unfamiliar ← py_lt (features_get fs "location_familiarity" (VNum 1)) 0.3;
  let acc := if (unfamiliar : bool) then boost 2 "Unfamiliar location" acc else acc in
  mismatch ← py_lt (features_get fs "tremor_signature" (VNum 1)) 0.7;
  let acc :=
    if (mismatch : bool) then boost 4 "Biometric signature mismatch" acc else acc in
  Ok acc.

(** Everything between the profile lookup and the normalisation. *)
Definition accumulate (p : profile) (fs : features) : result tally :=
  acc ← deviations (baseline_features p) fs (0, []);
  indicators fs acc.

(** [max(min(total_deviation / 10, 1.0), 0.05)] *)
Definition normalize (total_deviation : Q) : Q :=
  py_max (py_min (total_deviation / 10) 1.0) 0.05.

(** What [calculate_risk_score] hands back: a bare float from the early
    [return 0.9], a 2-tuple from the final [return]. *)
Inductive risk_result :=
| Bare (risk_score : Q)
| Pair (risk_score : Q) (risk_factors : list factor).

Definition calculate_risk_score (self : BehavioralAuthModel) (uid : string)
    (now : clock) (current_session : pyval) : result risk_result :=
  match user_profiles self !! uid with
  | None => Ok (Bare 0.9)
  | Some p =>
      current_features ← extract_features now current_session;
      acc ← accumulate p current_features;
      Ok (Pair (normalize acc.1) acc.2)
  end.

(** ** Classification *)

Inductive classification := BLOCK | CHALLENGE | MONITOR | ALLOW.

Record prediction := { verdict : Q; confidence : Q }.

Record model_predictions := {
  by_random_forest : option prediction;
  by_isolation_forest : option prediction
}.

Record RiskAssessment := {
  ra_user_id : string;
  ra_classification : classification;
  ra_action : string;
  ra_risk_score : Q;
  ra_risk_factors : list factor;
  ra_model_predictions : model_predictions;
  ra_timestamp : string
}.

(** The [if]/[elif] chain on [risk_score]. *)
Definition final_classification (t : thresholds) (risk_score : Q)
    : classification * string :=
  if Qle_bool (high t) risk_score then
    (BLOCK, "Block transaction and lock session")
  else if Qle_bool (medium t) risk_score then
    (CHALLENGE, "Request additional authentication (OTP/Biometric)")
  else if Qle_bool (low t) risk_score then
    (MONITOR, "Continue with increased monitoring")
  else
    (ALLOW, "Continue normally").

(** [risk_score, risk_factors = ...]: unpacking a float raises. *)
Definition unpack (r : risk_result) : result (Q * list factor) :=
  match r with
  | Pair risk_score risk_factors => Ok (risk_score, risk_factors)
  | Bare _ => Raise TypeError
  end.

Definition predict_random_forest (self : BehavioralAuthModel) (x : row)
    : result (option prediction) :=
  match random_forest (models self) with
  | None => Ok None
  | Some m =>
      rf_pred ← rf_predict m x;
      rf_prob ← rf_predict_proba m x;
      Ok (Some {| verdict := rf_pred; confidence := rf_prob |})
  end.

Definition predict_isolation_forest (self : BehavioralAuthModel) (x : row)
    : result (option prediction) :=
  match isolation_forest (models self) with
  | None => Ok None
  | Some m =>
      if_pred_raw ← if_predict m x;
      let if_pred := if Qeq_bool if_pred_raw 1 then 1 else 0 in
      anomaly_score ← if_decision_function m x;
      let anomaly_confidence :=
        py_max (py_min (0.5 + anomaly_score / 2) 1.0) 0.0 in
      Ok (Some {| verdict := if_pred; confidence := anomaly_confidence |})
  end.

(** [now1] and [now2] are the clock values of the two feature extractions,
    [timestamp] is [datetime.now().isoformat()]. *)
Definition classify_user (self : BehavioralAuthModel) (uid : string)
    (now1 now2 : clock) (timestamp : string) (current_session : pyval)
    : result RiskAssessment :=
  fs ← extract_features now1 current_session;
  let feature_vector := map snd fs in
  feature_vector_scaled ←
    match scalers self with
    | Some scaler => transform scaler feature_vector
    | None => Ok feature_vector
    end;
  rf ← predict_random_forest self feature_vector_scaled;
  iso ← predict_isolation_forest self feature_vector_scaled;
  r ← calculate_risk_score self uid now2 current_session;
  sf ← unpack r;
  let verdict := final_classification (risk_thresholds self) sf.1 in
  Ok {| ra_user_id := uid;
        ra_classification := verdict.1;
        ra_action := verdict.2;
        ra_risk_score := sf.1;
        ra_risk_factors := sf.2;
        ra_model_predictions :=
          {| by_random_forest := rf; by_isolation_forest := iso |};
        ra_timestamp := timestamp |}.

(** ** The sample data of [utils/data_generator.py] *)

(** numpy's global generator.  A computation is handed the sequence of raw
    variates and the number already consumed, and returns its value with
    the new count. *)
Definition rand (A : Type) : Type := (nat → Q) → nat → A * nat.

#[global] Instance rand_ret : MRet rand := λ A a draw i, (a, i).
#[global] Instance rand_bind : MBind rand := λ A B k c draw i,
  let r := c draw i in k r.1 draw r.2.

(** [np.random.normal(loc, scale)] *)
Definition random_normal (loc scale : Q) : rand Q :=
  λ draw i, (loc + scale * draw i, S i).

(** [np.random.random()] *)
Definition random_random : rand Q := λ draw i, (draw i, S i).

(** One legitimate session, the body of the first loop. *)
Definition legitimate_session : rand pyval :=
  daily_login_count ← random_normal 3 1;
  session_time ← random_normal 300 50;
  avg_speed ← random_normal 150 20;
  rhythm_variance ← random_normal 0.2 0.05;
  avg_pressure ← random_normal 0.7 0.1;
  swipe_velocity ← random_normal 200 30;
  screen_sequence_score ← random_normal 0.8 0.1;
  u ← random_random;
  let direct_sensitive_access := if Qltb 0.1 u then 0 else 1 in
  avg_dwell_time ← random_normal 10 3;
  amount ← random_normal 100 50;
  payee_score ← random_normal 0.9 0.1;
  frequency ← random_normal 5 2;
  balance_checks ← random_normal 2 1;
  familiarity_score ← random_normal 0.9 0.1;
  wifi_match ← random_normal 0.95 0.05;
  bluetooth_count ← random_normal 3 1;
  travel_distance ← random_normal 5 10;
  tremor_match_score ← random_normal 0.95 0.05;
  gyro_similarity ← random_normal 0.9 0.1;
  accel_similarity ← random_normal 0.9 0.1;
  mret (VDict (list_to_map
    [ ("user_id", VStr "user_001");
      ("daily_login_count", VNum daily_login_count);
      ("session_time", VNum session_time);
      ("keystroke_dynamics", VDict (list_to_map
         [ ("avg_speed", VNum avg_speed);
           ("rhythm_variance", VNum rhythm_variance);
           ("avg_pressure", VNum avg_pressure);
           ("swipe_velocity", VNum swipe_velocity) ]));
      ("navigation_pattern", VDict (list_to_map
         [ ("screen_sequence_score", VNum screen_sequence_score);
           ("direct_sensitive_access", VNum direct_sensitive_access);
           ("avg_dwell_time", VNum avg_dwell_time) ]));
      ("transaction_data", VDict (list_to_map
         [ ("amount", VNum amount);
           ("payee_score", VNum payee_score);
           ("frequency", VNum frequency);
           ("balance_checks", VNum balance_checks) ]));
      ("location_data", VDict (list_to_map
         [ ("familiarity_score", VNum familiarity_score);
           ("wifi_match", VNum wifi_match);
           ("bluetooth_count", VNum bluetooth_count);
           ("travel_distance", VNum travel_distance) ]));
      ("biometric_data", VDict (list_to_map
         [ ("tremor_match_score", VNum tremor_match_score);
           ("gyro_similarity", VNum gyro_similarity);
           ("accel_similarity", VNum accel_similarity) ]));
      ("panic_gesture", VNum 0);
      ("decoy_response", VNum 1);
      ("is_legitimate", VNum 1) ])).

(** One fraudulent session, the body of the second loop. *)
Definition fraudulent_session : rand pyval :=
  daily_login_count ← random_normal 1 0.5;
  session_time ← random_normal 600 100;
  avg_speed ← random_normal 100 30;
  rhythm_variance ← random_normal 0.4 0.1;
  avg_pressure ← random_normal 0.5 0.2;
  swipe_velocity ← random_normal 150 50;
  screen_sequence_score ← random_normal 0.3 0.2;
  u ← random_random;
  let direct_sensitive_access := if Qltb 0.5 u then 1 else 0 in
  avg_dwell_time ← random_normal 5 2;
  amount ← random_normal 500 200;
  payee_score ← random_normal 0.2 0.1;
  frequency ← random_normal 1 0.5;
  balance_checks ← random_normal 5 2;
  familiarity_score ← random_normal 0.2 0.1;
  wifi_match ← random_normal 0.1 0.05;
  bluetooth_count ← random_normal 0 1;
  travel_distance ← random_normal 100 50;
  tremor_match_score ← random_normal 0.3 0.2;
  gyro_similarity ← random_normal 0.4 0.2;
  accel_similarity ← random_normal 0.4 0.2;
  u_panic ← random_random;
  let panic_gesture := if Qltb 0.8 u_panic then 1 else 0 in
  u_decoy ← random_random;
  let decoy_response := if Qltb 0.7 u_decoy then 0 else 1 in
  mret (VDict (list_to_map
    [ ("user_id", VStr "user_001");
      ("daily_login_count", VNum daily_login_count);
      ("session_time", VNum session_time);
      ("keystroke_dynamics", VDict (list_to_map
         [ ("avg_speed", VNum avg_speed);
           ("rhythm_variance", VNum rhythm_variance);
           ("avg_pressure", VNum avg_pressure);
           ("swipe_velocity", VNum swipe_velocity) ]));
      ("navigation_pattern", VDict (list_to_map
         [ ("screen_sequence_score", VNum screen_sequence_score);
           ("direct_sensitive_access", VNum direct_sensitive_access);
           ("avg_dwell_time", VNum avg_dwell_time) ]));
      ("transaction_data", VDict (list_to_map
         [ ("amount", VNum amount);
           ("payee_score", VNum payee_score);
           ("frequency", VNum frequency);
           ("balance_checks", VNum balance_checks) ]));
      ("location_data", VDict (list_to_map
         [ ("familiarity_score", VNum familiarity_score);
           ("wifi_match", VNum wifi_match);
           ("bluetooth_count", VNum bluetooth_count);
           ("travel_distance", VNum travel_distance) ]));
      ("biometric_data", VDict (list_to_map
         [ ("tremor_match_score", VNum tremor_match_score);
           ("gyro_similarity", VNum gyro_similarity);
           ("accel_similarity", VNum accel_similarity) ]));
      ("panic_gesture", VNum panic_gesture);
      ("decoy_response", VNum decoy_response);
      ("is_legitimate", VNum 0) ])).

(** One iteration of a generating loop: draw a session, append it. *)
Definition append_session (make : rand pyval) (draw : nat → Q)
    (st : list pyval * nat) : list pyval * nat :=
  let r := make draw st.2 in ((st.1 ++ [r.1])%list, r.2).

(** [for i in range(count): ... sample_data.append(session)] *)
Definition append_sessions (count : N) (make : rand pyval)
    (sample_data : list pyval) : rand (list pyval) :=
  λ draw i, N.iter count (append_session make draw) (sample_data, i).

Definition generate_sample_data : rand (list pyval) :=
  sample_data ← append_sessions 100000 legitimate_session [];
  append_sessions 10000 fraudulent_session sample_data.

(** *** The demo's use of the sample data *)

(** [s['is_legitimate']]; [None] when the subscription raises. *)
Definition subscript (s : pyval) (k : string) : option pyval :=
  match s with VDict d => d !! k | _ => None end.

(** [[s for s in training_data if s['is_legitimate'] == 1]] *)
Fixpoint legitimate_sessions (training_data : list pyval)
    : option (list pyval) :=
  match training_data with
  | [] => Some []
  | s :: rest =>
      label ← subscript s "is_legitimate";
      kept ← legitimate_sessions rest;
      Some (if py_eq_1 label then s :: kept else kept)
  end.

(** The history [build_user_profile] processes: session number [n] is
    extracted while the clock reads [clocks n]. *)
Definition timed (clocks : nat → clock) (sessions : list pyval)
    : list (clock * pyval) :=
  imap (λ n s, (clocks n, s)) sessions.

(** ** Vocabulary of the statements *)

(** The signal groups that [extract_features] opens with a second [.get]. *)
Definition signal_groups : list string :=
  [ "keystroke_dynamics"; "navigation_pattern"; "transaction_data";
    "location_data"; "biometric_data" ].

Definition group_ok (d : gmap string pyval) (g : string) : bool :=
  match d !! g with
  | None | Some (VDict _) => true
  | Some _ => false
  end.

(** A well-formed observation: a mapping whose signal groups, where present,
    are mappings. *)
Definition well_formed (obs : pyval) : bool :=
  match obs with
  | VDict d => forallb (group_ok d) signal_groups
  | _ => false
  end.

(** Where a feature is read from: a top-level field, or a field of a group. *)
Inductive source :=
| Field (field : string)
| Grouped (group field : string).

Definition field_of (obs : pyval) (src : source) : option pyval :=
  match obs, src with
  | VDict d, Field f => d !! f
  | VDict d, Grouped g f =>
      match d !! g with Some (VDict gd) => gd !! f | _ => None end
  | _, _ => None
  end.

(** The documented source and default of every feature taken from the
    observation, in extraction order. *)
Definition documented_defaults : list (string * source * Q) :=
  [ ("login_frequency", Field "daily_login_count", 0);
    ("session_duration", Field "session_time", 0);
    ("avg_typing_speed", Grouped "keystroke_dynamics" "avg_speed", 0);
    ("typing_rhythm_variance", Grouped "keystroke_dynamics" "rhythm_variance", 0);
    ("tap_pressure", Grouped "keystroke_dynamics" "avg_pressure", 0);
    ("swipe_velocity", Grouped "keystroke_dynamics" "swipe_velocity", 0);
    ("typical_screen_sequence", Grouped "navigation_pattern" "screen_sequence_score", 0);
    ("direct_to_sensitive", Grouped "navigation_pattern" "direct_sensitive_access", 0);
    ("page_dwell_time", Grouped "navigation_pattern" "avg_dwell_time", 0);
    ("transaction_amount", Grouped "transaction_data" "amount", 0);
    ("payee_familiarity", Grouped "transaction_data" "payee_score", 1);
    ("transaction_frequency", Grouped "transaction_data" "frequency", 0);
    ("balance_check_frequency", Grouped "transaction_data" "balance_checks", 0);
    ("location_familiarity", Grouped "location_data" "familiarity_score", 1);
    ("wifi_pattern_match", Grouped "location_data" "wifi_match", 1);
    ("bluetooth_devices", Grouped "location_data" "bluetooth_count", 0);
    ("travel_distance", Grouped "location_data" "travel_distance", 0);
    ("tremor_signature", Grouped "biometric_data" "tremor_match_score", 1);
    ("gyroscope_pattern", Grouped "biometric_data" "gyro_similarity", 1);
    ("accelerometer_pattern", Grouped "biometric_data" "accel_similarity", 1);
    ("panic_gesture_triggered", Field "panic_gesture", 0);
    ("decoy_interaction_normal", Field "decoy_response", 1) ].

(** The two features taken from the clock. *)
Definition clock_features (now : clock) : features :=
  [ ("hour_of_day", VNum (inject_Z (hour now)));
    ("day_of_week", VNum (inject_Z (weekday now))) ].

(** The feature vector as documented: every feature is the field it is read
    from, or its default when the field or its group is absent. *)
Definition documented_value (obs : pyval) (entry : string * source * Q)
    : string * pyval :=
  (entry.1.1, default (VNum entry.2) (field_of obs entry.1.2)).

Definition documented_features (now : clock) (obs : pyval) : features :=
  let fs := map (documented_value obs) documented_defaults in
  (take 2 fs ++ clock_features now ++ drop 2 fs)%list.

Definition is_number (v : pyval) : bool :=
  match v with VNum _ => true | _ => false end.

(** Every feature value is a number. *)
Definition all_numbers (fs : features) : bool :=
  forallb (λ item, is_number item.2) fs.

(** A historical session whose extracted features are all numbers. *)
Definition numeric_session (cs : clock * pyval) : bool :=
  match extract_features cs.1 cs.2 with
  | Ok fs => all_numbers fs
  | Raise _ => false
  end.

(** A historical session in which feature [f] has the value [v]. *)
Definition feature_is (f : string) (v : pyval) (cs : clock * pyval) : Prop :=
  ∃ fs, extract_features cs.1 cs.2 = Ok fs ∧ assoc f fs = Some v.

(** [self.user_profiles[uid]['baseline_features'][feature]], where stored. *)
Definition stored_baseline (self : BehavioralAuthModel) (uid feature : string)
    : option baseline :=
  p ← user_profiles self !! uid; baseline_features p !! feature.


Definition indicator_messages : list factor :=
  [ Message "Panic gesture detected";
    Message "Direct access to sensitive area";
    Message "Unfamiliar location";
    Message "Biometric signature mismatch" ].

(** A factor reported by the deviation loop for feature [k]. *)
Definition deviation_of (d : factor) (k : string) : Prop :=
  ∃ z, d = Deviation k z ∧ 2 < z.

(** The factor the deviation loop reports for one feature, if any. *)
Definition deviation_factor (bf : gmap string baseline)
    (item : string * pyval) : option factor :=
  match bf !! item.1, item.2 with
  | Some b, VNum value =>
      let z := Qabs (value - mean b) / py_max (std b) 0.000001 in
      if Qltb 2 z then Some (Deviation item.1 z) else None
  | _, _ => None
  end.

(** Every sample list holds numbers only. *)
Definition numeric_samples (samples : gmap string (list pyval)) : Prop :=
  map_Forall (λ _ values, Forall (λ v, is_number v = true) values) samples.

(** The [total_deviation] of [calculate_risk_score] just before it is
    normalised, when that point is reached. *)
Definition total_deviation (self : BehavioralAuthModel) (uid : string)
    (now : clock) (obs : pyval) : option Q :=
  match user_profiles self !! uid, extract_features now obs with
  | Some p, Ok fs =>
      match accumulate p fs with Ok acc => Some acc.1 | Raise _ => None end
  | _, _ => None
  end.

(** What the deviation loop adds for a flag whose current value is 1, given
    the flag's own baseline: its z-score when that exceeds 2. *)
Definition flag_deviation (b : option baseline) : Q :=
  match b with
  | Some b =>
      let z := Qabs (1 - mean b) / py_max (std b) 0.000001 in
      if Qltb 2 z then z else 0
  | None => 0
  end.

Definition below (v : pyval) (c : Q) : bool :=
  match v with VNum q => Qltb q c | _ => false end.

(** The messages of the indicators that fire, in source order. *)
Definition indicator_factors (fs : features) : list factor :=
  ((if py_eq_1 (features_get fs "panic_gesture_triggered" (VNum 0))
    then [Message "Panic gesture detected"] else []) ++
   (if py_eq_1 (features_get fs "direct_to_sensitive" (VNum 0))
    then [Message "Direct access to sensitive area"] else []) ++
   (if below (features_get fs "location_familiarity" (VNum 1)) 0.3
    then [Message "Unfamiliar location"] else []) ++
   (if below (features_get fs "tremor_signature" (VNum 1)) 0.7
    then [Message "Biometric signature mismatch"] else []))%list.

(** The weights added by the three indicators other than the panic one. *)
Definition other_indicators (fs : features) : Q :=
  (if py_eq_1 (features_get fs "direct_to_sensitive" (VNum 0))
   then 3 else 0) +
  (if below (features_get fs "location_familiarity" (VNum 1)) 0.3
   then 2 else 0) +
  (if below (features_get fs "tremor_signature" (VNum 1)) 0.7
   then 4 else 0).

(** ** Sample data *)

Definition noon : clock := {| hour := 12; weekday := 2 |}.

(** A session with every signal group present. *)
Definition session (login duration direct familiarity tremor panic : Q) : pyval :=
  VDict (list_to_map
    [ ("daily_login_count", VNum login);
      ("session_time", VNum duration);
      ("keystroke_dynamics", VDict (list_to_map
         [ ("avg_speed", VNum 150); ("rhythm_variance", VNum 0.2);
           ("avg_pressure", VNum 0.7); ("swipe_velocity", VNum 200) ]));
      ("navigation_pattern", VDict (list_to_map
         [ ("screen_sequence_score", VNum 0.8);
           ("direct_sensitive_access", VNum direct);
           ("avg_dwell_time", VNum 10) ]));
      ("transaction_data", VDict (list_to_map
         [ ("amount", VNum 100); ("payee_score", VNum 0.9);
           ("frequency", VNum 5); ("balance_checks", VNum 2) ]));
      ("location_data", VDict (list_to_map
         [ ("familiarity_score", VNum familiarity); ("wifi_match", VNum 0.95);
           ("bluetooth_count", VNum 3); ("travel_distance", VNum 5) ]));
      ("biometric_data", VDict (list_to_map
         [ ("tremor_match_score", VNum tremor); ("gyro_similarity", VNum 0.9);
           ("accel_similarity", VNum 0.9) ]));
      ("panic_gesture", VNum panic);
      ("decoy_response", VNum 1) ]).

Definition calm_session : pyval := session 3 300 0 0.9 0.9 0.
Definition panic_session : pyval := session 3 300 0 0.9 0.9 1.

(** Two identical legitimate sessions. *)
Definition calm_history : list (clock * pyval) :=
  [ (noon, calm_session); (noon, calm_session) ].


(** The model after [build_user_profile(uid, history)] on a fresh object,
    evaluated with the unrounded statistics. *)
Definition profiled (uid : string) (history : list (clock * pyval))
    : BehavioralAuthModel :=
  match build_user_profile (np := exact_numpy) init uid history with
  | Ok (_, self) => self
  | Raise _ => init
  end.

(** The features extracted from [panic_session] at [noon]. *)
Definition panic_features : features :=
  Eval vm_compute in documented_features noon panic_session.



(** What [classify_user] returns for [panic_session] once the profile of
    [calm_history] is stored and no estimator is fitted. *)
Definition panic_assessment (timestamp : string) : RiskAssessment := {|
  ra_user_id := "user_001";
  ra_classification := BLOCK;
  ra_action := "Block transaction and lock session";
  ra_risk_score := 1.0;
  ra_risk_factors :=
    [ Deviation "panic_gesture_triggered" (2000000 # 2);
      Message "Panic gesture detected" ];
  ra_model_predictions :=
    {| by_random_forest := None; by_isolation_forest := None |};
  ra_timestamp := timestamp
|}.

(** The profile stored for an identity profiled without any history. *)
Definition blank_profile (uid : string) : profile := {|
  user_id := uid;
  baseline_features := ∅;
  behavioral_patterns := ∅;
  risk_factors := []
|}.

(** ** Further vocabulary *)

(** The total weight of the indicators that fire. *)
Definition indicator_weight (fs : features) : Q :=
  (if py_eq_1 (features_get fs "panic_gesture_triggered" (VNum 0))
   then 5 else 0) + other_indicators fs.

(** The action string that [classify_user] sets beside each classification. *)
Definition recommended_action (c : classification) : string :=
  match c with
  | BLOCK => "Block transaction and lock session"
  | CHALLENGE => "Request additional authentication (OTP/Biometric)"
  | MONITOR => "Continue with increased monitoring"
  | ALLOW => "Continue normally"
  end.

(** The top-level keys of an observation that [extract_features] reads. *)
Definition observation_keys : list string :=
  [ "daily_login_count"; "session_time"; "keystroke_dynamics";
    "navigation_pattern"; "transaction_data"; "location_data";
    "biometric_data"; "panic_gesture"; "decoy_response" ].



(** A fitted anomaly detector that flags every row, and a model object
    holding it as its only estimator. *)
Definition flagging_forest : IsolationForest :=
  {| if_predict := λ _, Ok (-1); if_decision_function := λ _, Ok (- 0.3) |}.

Definition guarded (self : BehavioralAuthModel) : BehavioralAuthModel :=
  {| models := {| random_forest := None;
                  isolation_forest := Some flagging_forest |};
     scalers := scalers self;
     user_profiles := user_profiles self;
     risk_thresholds := risk_thresholds self |}.

(** What a deviation factor, if any, adds to the running total. *)
Definition factor_weight (f : option factor) : Q :=
  match f with Some (Deviation _ z) => z | _ => 0 end.

(** The two features that [extract_features] takes from the clock. *)
Definition clock_feature_names : list string := [ "hour_of_day"; "day_of_week" ].

Definition midnight : clock := {| hour := 0; weekday := 6 |}.

(** A session under duress: the panic flag is set and the tremor signature
    does not match.  Its features at [noon], and what [classify_user]
    returns for it against the profile of [calm_history]. *)
Definition duress_session : pyval := session 3 300 0 0.9 0.2 1.

Definition duress_features : features :=
  Eval vm_compute in documented_features noon duress_session.

Definition duress_assessment (timestamp : string) : RiskAssessment := {|
  ra_user_id := "user_001";
  ra_classification := BLOCK;
  ra_action := "Block transaction and lock session";
  ra_risk_score := 1.0;
  ra_risk_factors :=
    [ Deviation "tremor_signature" (1400000000 # 2000);
      Deviation "panic_gesture_triggered" (2000000 # 2);
      Message "Panic gesture detected";
      Message "Biometric signature mismatch" ];
  ra_model_predictions :=
    {| by_random_forest := None; by_isolation_forest := None |};
  ra_timestamp := timestamp
|}.

(** * Properties *)

(** ** Comparisons and the clamp *)

Lemma Qltb_true (a b : Q) : Qltb a b = true ↔ a < b.
Proof.
  unfold Qltb. rewrite negb_true_iff, <- not_true_iff_false, Qle_bool_iff.
  split; [apply Qnot_le_lt | apply Qlt_not_le].
Qed.

Lemma Qltb_false (a b : Q) : Qltb a b = false ↔ b <= a.
Proof. unfold Qltb. rewrite negb_false_iff. apply Qle_bool_iff. Qed.

(** Running the error monad without touching the arithmetic. *)
Ltac run := cbn [mbind result_bind fst snd].

Lemma Ok_inj {A} (a b : A) : Ok a = Ok b → a = b.
Proof. congruence. Qed.

Lemma Qle_bool_false (a b : Q) : Qle_bool a b = false ↔ b < a.
Proof.
  rewrite <- not_true_iff_false, Qle_bool_iff.
  split; [apply Qnot_le_lt | apply Qlt_not_le].
Qed.

Ltac case_Qltb a b :=
  let H := fresh "Hcmp" in
  destruct (Qltb a b) eqn:H;
  [apply Qltb_true in H | apply Qltb_false in H]; cbv iota.

Lemma py_max_lub (a b : Q) : a <= py_max a b ∧ b <= py_max a b.
Proof. unfold py_max. case_Qltb a b; lra. Qed.

Lemma py_max_cases (a b : Q) : py_max a b = a ∨ py_max a b = b.
Proof. unfold py_max. destruct (Qltb a b); auto. Qed.

Lemma py_min_glb (a b : Q) : py_min a b <= a ∧ py_min a b <= b.
Proof. unfold py_min. case_Qltb b a; lra. Qed.

Lemma py_max_mono (a a' b : Q) : a <= a' → py_max a b <= py_max a' b.
Proof. intros. unfold py_max. case_Qltb a b; case_Qltb a' b; lra. Qed.

Lemma py_min_mono (a a' b : Q) : a <= a' → py_min a b <= py_min a' b.
Proof. intros. unfold py_min. case_Qltb b a; case_Qltb b a'; lra. Qed.

Lemma normalize_bounds (t : Q) : 0.05 <= normalize t ∧ normalize t <= 1.
Proof.
  unfold normalize, py_max, py_min.
  case_Qltb 1.0 (t / 10); case_Qltb 1.0 0.05; try lra.
  case_Qltb (t / 10) 0.05; lra.
Qed.

Lemma normalize_mono (t t' : Q) : t <= t' → normalize t <= normalize t'.
Proof.
  intros. unfold normalize. apply py_max_mono, py_min_mono.
  unfold Qdiv. apply Qmult_le_compat_r; [assumption | discriminate].
Qed.

(** The floored divisor is positive whatever the stored std is. *)
Lemma floor_positive (sd : Q) : 0 < py_max sd 0.000001.
Proof. pose proof (py_max_lub sd 0.000001) as [_ H]. lra. Qed.

Lemma py_div_floor (a sd : Q) :
  py_div a (py_max sd 0.000001) = Ok (a / py_max sd 0.000001).
Proof.
  unfold py_div. destruct (Qeq_bool _ 0) eqn:E; [| reflexivity].
  apply Qeq_bool_iff in E. pose proof (floor_positive sd). lra.
Qed.

(** ** Feature extraction *)

(** Case analysis on a signal group: absent, a mapping, or anything else,
    where the first field read from it raises. *)
Ltac split_group d g :=
  destruct (d !! g) as [[? | ? | | ?] |];
  [reflexivity | reflexivity | reflexivity | | ].

Lemma extract_features_documented (now : clock) (obs : pyval) :
  extract_features now obs =
    if well_formed obs then Ok (documented_features now obs)
    else Raise AttributeError.
Proof.
  destruct obs as [q | t | | d]; try reflexivity.
  cbv beta iota zeta delta
    [extract_features well_formed documented_features signal_groups
     documented_defaults documented_value field_of group_ok py_get
     empty_dict forallb map take drop app fst snd clock_features].
  split_group d "keystroke_dynamics"; split_group d "navigation_pattern";
  split_group d "transaction_data"; split_group d "location_data";
  split_group d "biometric_data"; reflexivity.
Qed.

Lemma extract_features_keys (now : clock) (obs : pyval) (fs : features) :
  extract_features now obs = Ok fs → fs.*1 = feature_names.
Proof.
  rewrite extract_features_documented.
  destruct (well_formed obs); [| discriminate].
  intros [= <-]. reflexivity.
Qed.

Lemma feature_names_NoDup : NoDup feature_names.
Proof. apply (bool_decide_unpack _). vm_compute. exact I. Qed.

(** C8. [extract_features] returns for every well-formed observation (a
    mapping whose signal groups, where present, are mappings): missing fields
    and missing groups never raise, every feature read from the observation
    is the field's value or else its documented default (1 for location
    familiarity, wifi match, the three biometric match scores, payee
    familiarity and the decoy response; 0 for all others), and an
    observation with nothing in it yields exactly the defaults.  It raises,
    with an [AttributeError], exactly when the observation is not
    well-formed. *)
Theorem extract_features_defaults (now : clock) (obs : pyval) :
  (well_formed obs = true →
     ∃ fs, extract_features now obs = Ok fs ∧
       fs.*1 = feature_names ∧
       assoc "hour_of_day" fs = Some (VNum (inject_Z (hour now))) ∧
       assoc "day_of_week" fs = Some (VNum (inject_Z (weekday now))) ∧
       Forall (λ entry : string * source * Q,
                 assoc entry.1.1 fs =
                   Some (default (VNum entry.2) (field_of obs entry.1.2)))
              documented_defaults) ∧
  (raises (extract_features now obs) →
     well_formed obs = false ∧ extract_features now obs = Raise AttributeError) ∧
  extract_features now (VDict ∅) =
    Ok [ ("login_frequency", VNum 0); ("session_duration", VNum 0);
         ("hour_of_day", VNum (inject_Z (hour now)));
         ("day_of_week", VNum (inject_Z (weekday now)));
         ("avg_typing_speed", VNum 0); ("typing_rhythm_variance", VNum 0);
         ("tap_pressure", VNum 0); ("swipe_velocity", VNum 0);
         ("typical_screen_sequence", VNum 0); ("direct_to_sensitive", VNum 0);
         ("page_dwell_time", VNum 0); ("transaction_amount", VNum 0);
         ("payee_familiarity", VNum 1); ("transaction_frequency", VNum 0);
         ("balance_check_frequency", VNum 0); ("location_familiarity", VNum 1);
         ("wifi_pattern_match", VNum 1); ("bluetooth_devices", VNum 0);
         ("travel_distance", VNum 0); ("tremor_signature", VNum 1);
         ("gyroscope_pattern", VNum 1); ("accelerometer_pattern", VNum 1);
         ("panic_gesture_triggered", VNum 0);
         ("decoy_interaction_normal", VNum 1) ].
Proof.
  split; [| split].
  - intros Hwf. exists (documented_features now obs).
    rewrite extract_features_documented, Hwf.
    split; [reflexivity |]. split; [reflexivity |].
    split; [reflexivity |]. split; [reflexivity |].
    repeat constructor.
  - intros [e He]. rewrite extract_features_documented in *.
    destruct (well_formed obs); [discriminate | auto].
  - reflexivity.
Qed.

Lemma extract_features_defaults_witness :
  ∃ fs, extract_features noon calm_session = Ok fs ∧
    fs.*1 = feature_names ∧
    assoc "hour_of_day" fs = Some (VNum (inject_Z (hour noon))) ∧
    assoc "day_of_week" fs = Some (VNum (inject_Z (weekday noon))) ∧
    Forall (λ entry : string * source * Q,
              assoc entry.1.1 fs =
                Some (default (VNum entry.2) (field_of calm_session entry.1.2)))
           documented_defaults.
Proof.
  apply (proj1 (extract_features_defaults noon calm_session)).
  vm_compute. reflexivity.
Defined.

(** ** Risk scoring: result shape, totality and range *)

Lemma calculate_risk_score_known self uid p now obs :
  user_profiles self !! uid = Some p →
  calculate_risk_score self uid now obs =
    (fs ← extract_features now obs;
     acc ← accumulate p fs;
     Ok (Pair (normalize acc.1) acc.2)).
Proof. intros Hp. unfold calculate_risk_score. rewrite Hp. reflexivity. Qed.

Lemma calculate_risk_score_unknown self uid now obs :
  user_profiles self !! uid = None →
  calculate_risk_score self uid now obs = Ok (Bare 0.9).
Proof. intros Hp. unfold calculate_risk_score. rewrite Hp. reflexivity. Qed.

Lemma all_numbers_cons item (fs : features) :
  all_numbers (item :: fs) = true ↔ is_number item.2 = true ∧ all_numbers fs = true.
Proof. unfold all_numbers. simpl. apply andb_true_iff. Qed.

Lemma is_number_float v : is_number v = true → ∃ q, v = VNum q.
Proof. destruct v; try discriminate. eauto. Qed.







Lemma calculate_risk_score_clamped self uid now obs r :
  is_Some (user_profiles self !! uid) →
  calculate_risk_score self uid now obs = Ok r →
  ∃ t facs, r = Pair (normalize t) facs.
Proof.
  intros [p Hp]. rewrite (calculate_risk_score_known _ _ _ _ _ Hp).
  destruct (extract_features now obs) as [fs |]; [| discriminate].
  simpl. destruct (accumulate p fs) as [[t facs] |]; [| discriminate].
  intros [= <-]. eauto.
Qed.


(** C1, evaluated on the code.  For an identity without a profile
    [calculate_risk_score] returns the bare float 0.9; no factor list, empty
    or not, comes with it. *)
Theorem unknown_identity_returns_bare_float (now : clock) (obs : pyval) :
  calculate_risk_score init "never-seen-id" now obs = Ok (Bare 0.9) ∧
  calculate_risk_score init "never-seen-id" now obs ≠ Ok (Pair 0.9 []).
Proof. split; [reflexivity | discriminate]. Qed.





(** ** Classification *)

Lemma classify_user_verdict self uid now1 now2 timestamp obs ra :
  classify_user self uid now1 now2 timestamp obs = Ok ra →
  (ra_classification ra, ra_action ra) =
    final_classification (risk_thresholds self) (ra_risk_score ra).
Proof.
  unfold classify_user.
  destruct (extract_features now1 obs) as [fs |]; [| discriminate]. simpl.
  destruct (match scalers self with
            | Some scaler => transform scaler (map snd fs)
            | None => Ok (map snd fs) end) as [x |]; [| discriminate].
  simpl.
  destruct (predict_random_forest self x); [| discriminate]. simpl.
  destruct (predict_isolation_forest self x); [| discriminate]. simpl.
  destruct (calculate_risk_score self uid now2 obs) as [r |]; [| discriminate].
  simpl. destruct (unpack r) as [[s facs] |]; [| discriminate]. simpl.
  intros [= <-]. simpl. destruct (final_classification _ _). reflexivity.
Qed.

Lemma final_classification_chain (t : thresholds) (s : Q) :
  let c := (final_classification t s).1 in
  (high t <= s → c = BLOCK) ∧
  (s < high t → medium t <= s → c = CHALLENGE) ∧
  (s < high t → s < medium t → low t <= s → c = MONITOR) ∧
  (s < high t → s < medium t → s < low t → c = ALLOW).
Proof.
  unfold final_classification.
  destruct (Qle_bool (high t) s) eqn:Eh;
    [apply Qle_bool_iff in Eh | apply Qle_bool_false in Eh];
  [| destruct (Qle_bool (medium t) s) eqn:Em;
       [apply Qle_bool_iff in Em | apply Qle_bool_false in Em];
     [| destruct (Qle_bool (low t) s) eqn:El;
          [apply Qle_bool_iff in El | apply Qle_bool_false in El]]];
  simpl; repeat split; intros; try reflexivity; lra.
Qed.

(** C3. With the thresholds of [__init__] (low 0.3, medium 0.6, high 0.8)
    the classification of [classify_user] is read off the risk score
    top-down with [>=]: at least 0.8 is BLOCK, otherwise at least 0.6 is
    CHALLENGE, otherwise at least 0.3 is MONITOR, otherwise ALLOW.  So 0.05
    is ALLOW, 0.3 MONITOR, 0.6 CHALLENGE, and 0.8 and 0.95 are BLOCK. *)
Theorem threshold_ordering self uid now1 now2 timestamp obs ra
    (Hthresholds : risk_thresholds self = risk_thresholds init)
    (Hcall : classify_user self uid now1 now2 timestamp obs = Ok ra) :
  let s := ra_risk_score ra in
  let c := ra_classification ra in
  ((0.8 <= s → c = BLOCK) ∧
   (s < 0.8 → 0.6 <= s → c = CHALLENGE) ∧
   (s < 0.6 → 0.3 <= s → c = MONITOR) ∧
   (s < 0.3 → c = ALLOW)) ∧
  (final_classification (risk_thresholds self) 0.05).1 = ALLOW ∧
  (final_classification (risk_thresholds self) 0.3).1 = MONITOR ∧
  (final_classification (risk_thresholds self) 0.6).1 = CHALLENGE ∧
  (final_classification (risk_thresholds self) 0.8).1 = BLOCK ∧
  (final_classification (risk_thresholds self) 0.95).1 = BLOCK.
Proof.
  intros s c.
  pose proof (classify_user_verdict _ _ _ _ _ _ _ Hcall) as Hv.
  pose proof (final_classification_chain (risk_thresholds self) s) as Hchain.
  fold s in Hv. rewrite <- Hv in Hchain. simpl in Hchain. fold c in Hchain.
  rewrite Hthresholds in *. simpl in Hchain.
  destruct Hchain as (Hb & Hc & Hm & Ha).
  split; [| repeat split; reflexivity].
  repeat split; intros.
  - apply Hb. assumption.
  - apply Hc; assumption.
  - apply Hm; [lra | assumption..].
  - apply Ha; [lra | lra | assumption].
Qed.

Lemma threshold_ordering_witness :
  let s := ra_risk_score (panic_assessment "2025-01-01T12:00:00") in
  let c := ra_classification (panic_assessment "2025-01-01T12:00:00") in
  ((0.8 <= s → c = BLOCK) ∧
   (s < 0.8 → 0.6 <= s → c = CHALLENGE) ∧
   (s < 0.6 → 0.3 <= s → c = MONITOR) ∧
   (s < 0.3 → c = ALLOW)) ∧
  (final_classification (risk_thresholds (profiled "user_001" calm_history)) 0.05).1 = ALLOW ∧
  (final_classification (risk_thresholds (profiled "user_001" calm_history)) 0.3).1 = MONITOR ∧
  (final_classification (risk_thresholds (profiled "user_001" calm_history)) 0.6).1 = CHALLENGE ∧
  (final_classification (risk_thresholds (profiled "user_001" calm_history)) 0.8).1 = BLOCK ∧
  (final_classification (risk_thresholds (profiled "user_001" calm_history)) 0.95).1 = BLOCK.
Proof.
  apply (threshold_ordering (profiled "user_001" calm_history) "user_001"
           noon noon "2025-01-01T12:00:00" panic_session).
  - vm_compute. reflexivity.
  - vm_compute. reflexivity.
Defined.

(** ** Profile building *)

Lemma build_user_profile_nil {np : Numpy} self uid :
  build_user_profile self uid [] =
    Ok (blank_profile uid,
        {| models := models self;
           scalers := scalers self;
           user_profiles := <[uid := blank_profile uid]> (user_profiles self);
           risk_thresholds := risk_thresholds self |}).
Proof.
  unfold build_user_profile, collect_samples. simpl.
  unfold compute_statistics.
  destruct (decide _) as [_ | Hno].
  - simpl. rewrite omap_empty. reflexivity.
  - exfalso. apply Hno, map_Forall_empty.
Qed.

(** C4, as the code has it.  [build_user_profile] has no minimum on the
    history: with zero historical observations neither loop runs, nothing is
    raised, and a profile with empty [baseline_features] is stored and
    returned. *)
Theorem build_user_profile_without_history {np : Numpy} self uid :
  build_user_profile self uid [] =
    Ok (blank_profile uid,
        {| models := models self;
           scalers := scalers self;
           user_profiles := <[uid := blank_profile uid]> (user_profiles self);
           risk_thresholds := risk_thresholds self |}) ∧
  user_profiles
    (match build_user_profile self uid [] with
     | Ok (_, self') => self'
     | Raise _ => self
     end) !! uid = Some (blank_profile uid).
Proof.
  rewrite build_user_profile_nil. split; [reflexivity |].
  simpl. apply lookup_insert_eq.
Qed.

(** C4 refuted as stated: profiling with zero historical observations does
    not signal an error. *)
Lemma build_user_profile_without_history_returns :
  ¬ raises (build_user_profile init "user_001" []).
Proof.
  intros [e He]. rewrite build_user_profile_nil in He. discriminate He.
Qed.

(** ** Order of the risk factors *)

Lemma deviation_step_factors bf acc item acc' :
  deviation_step bf acc item = Ok acc' →
  acc'.2 = acc.2 ∨ ∃ d, acc'.2 = (acc.2 ++ [d])%list ∧ deviation_of d item.1.
Proof.
  unfold deviation_step. destruct (bf !! item.1) as [b |].
  - destruct (py_float item.2) as [value |]; [| discriminate]. run.
    rewrite py_div_floor. run.
    case_Qltb 2 (Qabs (value - mean b) / py_max (std b) 0.000001);
      intros [= <-]; [right | left; reflexivity].
    eexists. split; [reflexivity |]. eexists. split; [reflexivity | assumption].
  - intros [= <-]. left. reflexivity.
Qed.

Lemma deviations_factors bf (fs : features) : ∀ acc acc',
  deviations bf fs acc = Ok acc' →
  ∃ devs ks, acc'.2 = (acc.2 ++ devs)%list ∧
    Forall2 deviation_of devs ks ∧ ks `sublist_of` fs.*1.
Proof.
  induction fs as [| item fs IH]; intros acc acc'.
  - intros [= <-]. exists [], []. rewrite app_nil_r.
    split; [reflexivity | split; constructor].
  - simpl. destruct (deviation_step bf acc item) as [acc1 |] eqn:Hstep;
      [| discriminate].
    simpl. intros Hrest.
    destruct (IH _ _ Hrest) as (devs & ks & Heq & Hdevs & Hsub).
    destruct (deviation_step_factors _ _ _ _ Hstep) as [H1 | (d & H1 & Hd)].
    + exists devs, ks. rewrite Heq, H1.
      split; [reflexivity | split; [assumption | by apply sublist_cons]].
    + exists (d :: devs), (item.1 :: ks). rewrite Heq, H1, <- app_assoc.
      split; [reflexivity | split; [by constructor | by apply sublist_skip]].
Qed.

Ltac solve_elem :=
  repeat first [apply list_elem_of_here | apply list_elem_of_further].

Ltac solve_sublist :=
  repeat first [apply sublist_nil_l | apply sublist_skip | apply sublist_cons].

Lemma indicators_factors (fs : features) acc acc' :
  indicators fs acc = Ok acc' →
  ∃ rules, acc'.2 = (acc.2 ++ rules)%list ∧ rules `sublist_of` indicator_messages.
Proof.
  unfold indicators, boost, indicator_messages.
  destruct (py_lt (features_get fs "location_familiarity" (VNum 1)) 0.3)
    as [unfamiliar |]; [| discriminate].
  destruct (py_lt (features_get fs "tremor_signature" (VNum 1)) 0.7)
    as [mismatch |]; [| discriminate].
  destruct (py_eq_1 (features_get fs "panic_gesture_triggered" (VNum 0)));
  destruct (py_eq_1 (features_get fs "direct_to_sensitive" (VNum 0)));
  destruct unfamiliar; destruct mismatch; simpl; intros [= <-]; simpl;
  rewrite <- ?app_assoc; simpl;
  (eexists; split; [reflexivity | solve_sublist]) ||
  (exists []; split; [by rewrite app_nil_r | solve_sublist]).
Qed.

Lemma deviation_step_exact bf acc item acc' :
  deviation_step bf acc item = Ok acc' →
  acc'.2 = (acc.2 ++ option_list (deviation_factor bf item))%list.
Proof.
  unfold deviation_step, deviation_factor.
  destruct (bf !! item.1) as [b |];
    [| intros <-%Ok_inj; by rewrite app_nil_r].
  destruct item.2 as [value | | |]; cbn [py_float]; run; try discriminate.
  rewrite py_div_floor. run. cbv zeta.
  destruct (Qltb 2 _); intros <-%Ok_inj; [reflexivity |].
  cbn [option_list snd]. by rewrite app_nil_r.
Qed.

Lemma deviations_exact bf (fs : features) : ∀ acc acc',
  deviations bf fs acc = Ok acc' →
  acc'.2 = (acc.2 ++ omap (deviation_factor bf) fs)%list.
Proof.
  induction fs as [| item fs IH]; intros acc acc'.
  - intros <-%Ok_inj. by rewrite app_nil_r.
  - cbn [deviations].
    destruct (deviation_step bf acc item) as [acc1 |] eqn:Hstep;
      [| discriminate].
    run. intros Hrest. rewrite (IH _ _ Hrest).
    rewrite (deviation_step_exact _ _ _ _ Hstep), <- app_assoc.
    f_equal. cbn [omap list_omap].
    destruct (deviation_factor bf item); reflexivity.
Qed.

Lemma indicators_exact (fs : features) acc acc' :
  indicators fs acc = Ok acc' →
  acc'.2 = (acc.2 ++ indicator_factors fs)%list.
Proof.
  unfold indicators, indicator_factors, py_lt, below, boost.
  destruct (features_get fs "location_familiarity" (VNum 1)) as [q1 | | |];
    cbn [py_float]; run; try discriminate.
  destruct (features_get fs "tremor_signature" (VNum 1)) as [q2 | | |];
    cbn [py_float]; run; try discriminate.
  destruct (py_eq_1 _), (py_eq_1 _), (Qltb q1 0.3), (Qltb q2 0.7);
    intros <-%Ok_inj; cbn [snd]; rewrite <- ?app_assoc; cbn [app];
    rewrite ?app_nil_r; reflexivity.
Qed.

(** C9. For a known identity the factor list is ordered by trigger-check
    order: first the baseline-deviation factors, one for each feature whose
    z-score exceeds 2, in feature-extraction order, then the messages of
    the fixed rules that fire, in the order panic gesture, direct sensitive
    access, unfamiliar location, biometric mismatch. *)
Theorem risk_factors_in_check_order self uid now obs r
    (Hknown : is_Some (user_profiles self !! uid))
    (Hcall : calculate_risk_score self uid now obs = Ok r) :
  ∃ p fs s devs ks rules,
    user_profiles self !! uid = Some p ∧
    extract_features now obs = Ok fs ∧
    r = Pair s (devs ++ rules)%list ∧
    devs = omap (deviation_factor (baseline_features p)) fs ∧
    rules = indicator_factors fs ∧
    Forall2 deviation_of devs ks ∧
    ks `sublist_of` feature_names ∧
    rules `sublist_of` indicator_messages.
Proof.
  destruct Hknown as [p Hp].
  rewrite (calculate_risk_score_known _ _ _ _ _ Hp) in Hcall.
  destruct (extract_features now obs) as [fs |] eqn:Hfs; [| discriminate].
  revert Hcall. run. unfold accumulate.
  destruct (deviations (baseline_features p) fs (0, [])) as [acc1 |] eqn:Hdev;
    [| discriminate].
  run.
  destruct (indicators fs acc1) as [acc2 |] eqn:Hind; [| discriminate].
  run. intros <-%Ok_inj.
  destruct (deviations_factors _ _ _ _ Hdev) as (devs & ks & Hd & Hdevs & Hsub).
  destruct (indicators_factors _ _ _ Hind) as (rules & Hr & Hrules).
  pose proof (deviations_exact _ _ _ _ Hdev) as Hd'.
  pose proof (indicators_exact _ _ _ Hind) as Hr'.
  cbn [snd app] in Hd, Hd'. rewrite Hd in Hr, Hr'.
  assert (devs = omap (deviation_factor (baseline_features p)) fs)
    as Edevs by congruence.
  assert (rules = indicator_factors fs) as Erules.
  { rewrite Hr in Hr'. by apply app_inv_head in Hr'. }
  rewrite (extract_features_keys _ _ _ Hfs) in Hsub.
  exists p, fs, (normalize acc2.1), devs, ks, rules.
  rewrite Hr. auto 10.
Qed.

Lemma risk_factors_in_check_order_witness :
  ∃ p fs s devs ks rules,
    user_profiles (profiled "user_001" calm_history) !! "user_001" = Some p ∧
    extract_features noon panic_session = Ok fs ∧
    Pair 1.0 [ Deviation "panic_gesture_triggered" (2000000 # 2);
               Message "Panic gesture detected" ]
      = Pair s (devs ++ rules)%list ∧
    devs = omap (deviation_factor (baseline_features p)) fs ∧
    rules = indicator_factors fs ∧
    Forall2 deviation_of devs ks ∧
    ks `sublist_of` feature_names ∧
    rules `sublist_of` indicator_messages.
Proof.
  apply (risk_factors_in_check_order (profiled "user_001" calm_history)
           "user_001" noon panic_session).
  - apply (bool_decide_unpack _). vm_compute. exact I.
  - vm_compute. reflexivity.
Defined.

(** ** Monotonicity in the distance from the baseline mean *)

Lemma assoc_None (fs : features) k : k ∉ fs.*1 → assoc k fs = None.
Proof.
  induction fs as [| [k' v] fs IH]; [reflexivity |].
  rewrite fmap_cons, not_elem_of_cons. intros [Hne Hnot]. simpl in *.
  case_decide; [congruence | auto].
Qed.

(** An ordered dict is its keys, each paired with its lookup. *)
Lemma features_eta (fs : features) :
  NoDup fs.*1 → fs = (λ k, (k, default VNone (assoc k fs))) <$> fs.*1.
Proof.
  induction fs as [| [k v] fs IH]; [reflexivity |].
  rewrite fmap_cons, NoDup_cons. intros [Hk Hnd].
  rewrite fmap_cons. cbn [fst assoc]. rewrite decide_True by reflexivity.
  f_equal. rewrite (IH Hnd) at 1.
  apply Forall_fmap_ext, Forall_forall. intros j Hj.
  rewrite decide_False by (intros ->; contradiction). reflexivity.
Qed.




Section Monotone.
Variable bf : gmap string baseline.
Variable f : string.
Variables x x' : Q.
Variables value value' : string → pyval.

Hypothesis Hfar :
  ∀ b, bf !! f = Some b → Qabs (x - mean b) <= Qabs (x' - mean b).
Hypothesis Hat : value f = VNum x ∧ value' f = VNum x'.
Hypothesis Hothers : ∀ k, k ≠ f → value' k = value k.

End Monotone.







(** ** Profiles built from a history *)

Lemma foldl_append_value (fs : features) : ∀ samples k,
  NoDup fs.*1 →
  foldl append_value samples fs !! k =
    match assoc k fs with
    | Some v => Some (default [] (samples !! k) ++ [v])%list
    | None => samples !! k
    end.
Proof.
  induction fs as [| [k' v'] fs IH]; intros samples k; [reflexivity |].
  rewrite fmap_cons, NoDup_cons. cbn [fst]. intros [Hk' Hnd].
  cbn [foldl assoc]. rewrite (IH _ _ Hnd). unfold append_value. cbn [fst snd].
  case_decide as Hk.
  - subst k'. rewrite (assoc_None _ _ Hk'), lookup_insert_eq. reflexivity.
  - rewrite lookup_insert_ne by exact Hk. reflexivity.
Qed.

Lemma foldl_append_value_numeric (fs : features) : ∀ samples,
  all_numbers fs = true → numeric_samples samples →
  numeric_samples (foldl append_value samples fs).
Proof.
  induction fs as [| [k v] fs IH]; intros samples Hfs Hs; [exact Hs |].
  apply all_numbers_cons in Hfs as [Hv Hfs]. cbn [foldl].
  apply IH; [exact Hfs |]. unfold append_value. cbn [fst snd] in *.
  apply map_Forall_insert_2; [| exact Hs].
  apply Forall_app. split; [| by repeat constructor].
  destruct (samples !! k) as [vs |] eqn:E; [exact (Hs _ _ E) | constructor].
Qed.

Lemma collect_samples_numeric (history : list (clock * pyval)) : ∀ samples,
  forallb numeric_session history = true → numeric_samples samples →
  ∃ samples', collect_samples history samples = Ok samples' ∧
    numeric_samples samples'.
Proof.
  induction history as [| [now session] history IH]; intros samples Hh Hs.
  - simpl. eauto.
  - cbn [forallb] in Hh. apply andb_true_iff in Hh as [Hn Hh].
    unfold numeric_session in Hn. cbn [fst snd collect_samples] in *.
    destruct (extract_features now session) as [fs |]; [| discriminate]. run.
    apply IH; [exact Hh |]. by apply foldl_append_value_numeric.
Qed.

Lemma collect_samples_constant (history : list (clock * pyval)) f v :
  ∀ samples samples',
  collect_samples history samples = Ok samples' →
  Forall (feature_is f v) history →
  samples' !! f =
    match history with
    | [] => samples !! f
    | _ => Some (default [] (samples !! f) ++ replicate (length history) v)%list
    end.
Proof.
  induction history as [| [now session] history IH]; intros samples samples'.
  - intros <-%Ok_inj _. reflexivity.
  - cbn [collect_samples]. intros Hcollect Hall.
    apply Forall_cons in Hall as [(fs & Hfs & Hv) Hall]. cbn [fst snd] in Hfs.
    rewrite Hfs in Hcollect. revert Hcollect. run. intros Hcollect.
    rewrite (IH _ _ Hcollect Hall).
    rewrite foldl_append_value
      by (rewrite (extract_features_keys _ _ _ Hfs); apply feature_names_NoDup).
    rewrite Hv. destruct history; simpl; [reflexivity |].
    rewrite <- app_assoc. reflexivity.
Qed.

(** *** Statistics of a constant sample *)

Lemma statistics_numbers {np : Numpy} (values : list pyval) :
  Forall (λ v, is_number v = true) values → is_Some (statistics values).
Proof.
  intros Hnum. unfold statistics, np_array.
  assert (is_Some (mapM as_float values)) as [xs ->]; [| simpl; eauto].
  apply mapM_is_Some. eapply Forall_impl; [exact Hnum |].
  intros v Hv. apply is_number_float in Hv as [q ->]. simpl. eauto.
Qed.

Lemma np_array_replicate (n : nat) (v : Q) :
  np_array (replicate n (VNum v)) = Some (replicate n v).
Proof.
  unfold np_array. induction n as [| n IH]; [reflexivity |].
  cbn [replicate mapM]. rewrite IH. reflexivity.
Qed.

Lemma map_replicate {A B} (g : A → B) (n : nat) (a : A) :
  map g (replicate n a) = replicate n (g a).
Proof. induction n as [| n IH]; [reflexivity |]. simpl. by rewrite IH. Qed.

Lemma Qsum_replicate (n : nat) (v : Q) :
  Qsum (replicate n v) == inject_Z (Z.of_nat n) * v.
Proof.
  induction n as [| n IH]; [reflexivity |].
  cbn [replicate Qsum foldr]. fold (Qsum (replicate n v)). rewrite IH.
  rewrite Nat2Z.inj_succ. unfold Z.succ. rewrite inject_Z_plus. ring.
Qed.

Lemma exact_mean_replicate (n : nat) (v : Q) :
  (0 < n)%nat → exact_mean (replicate n v) == v.
Proof.
  intros Hn. unfold exact_mean. rewrite length_replicate, Qsum_replicate.
  field. change 0 with (inject_Z 0). rewrite inject_Z_injective. lia.
Qed.

Lemma exact_sqrt_0 (q : Q) : q == 0 → exact_sqrt q == 0.
Proof.
  unfold Qeq, exact_sqrt. cbn [Qnum Qden]. intros Hq.
  assert (Qnum q = 0%Z) as -> by lia. reflexivity.
Qed.

Lemma exact_std_replicate (n : nat) (v : Q) :
  (0 < n)%nat → exact_std (replicate n v) == 0.
Proof.
  intros Hn. unfold exact_std. apply exact_sqrt_0.
  rewrite map_replicate, exact_mean_replicate by exact Hn.
  rewrite (exact_mean_replicate n v Hn).
  assert (v - v == 0) as -> by ring. reflexivity.
Qed.

(** With the unrounded statistics a constant sample has its value as mean
    and std 0. *)
Lemma exact_statistics_replicate (n : nat) (v : Q) :
  (0 < n)%nat →
  ∃ b, statistics (np := exact_numpy) (replicate n (VNum v)) = Some b ∧
    mean b == v ∧ std b == 0.
Proof.
  intros Hn. unfold statistics. rewrite np_array_replicate. simpl.
  eexists. split; [reflexivity |]. cbn [mean std].
  split; [by apply exact_mean_replicate | by apply exact_std_replicate].
Qed.

Lemma build_user_profile_numeric {np : Numpy} self uid history :
  forallb numeric_session history = true →
  ∃ samples,
    collect_samples history ∅ = Ok samples ∧
    let p := {| user_id := uid;
                baseline_features := omap statistics samples;
                behavioral_patterns := ∅;
                risk_factors := [] |} in
    build_user_profile self uid history =
      Ok (p, {| models := models self;
                scalers := scalers self;
                user_profiles := <[uid := p]> (user_profiles self);
                risk_thresholds := risk_thresholds self |}).
Proof.
  intros Hnum.
  destruct (collect_samples_numeric history ∅ Hnum) as (samples & Hc & Hs);
    [apply map_Forall_empty |].
  exists samples. split; [exact Hc |].
  unfold build_user_profile. rewrite Hc. run. unfold compute_statistics.
  destruct (decide _) as [_ | Hno]; [reflexivity |].
  exfalso. apply Hno. intros k values Hk.
  apply statistics_numbers. exact (Hs k values Hk).
Qed.

(** *** What [calculate_risk_score] can raise *)







(** ** The panic flag against its own baseline *)

Lemma bind_Ok_r {A} (c : result A) : (c ≫= Ok) = c.
Proof. destruct c; reflexivity. Qed.

Lemma assoc_is_Some (fs : features) k : k ∈ fs.*1 → is_Some (assoc k fs).
Proof.
  induction fs as [| [k' v] fs IH]; [by rewrite elem_of_nil |].
  rewrite fmap_cons, elem_of_cons. simpl. intros [-> | Hin].
  - rewrite decide_True by reflexivity. eauto.
  - case_decide; eauto.
Qed.

(** A feature sitting on its baseline mean adds nothing. *)
Lemma deviation_step_at_mean bf acc k x b :
  bf !! k = Some b → x == mean b →
  deviation_step bf acc (k, VNum x) = Ok acc.
Proof.
  intros Hb Hx. unfold deviation_step. cbn [fst snd py_float]. rewrite Hb. run.
  rewrite py_div_floor. run.
  assert (Hz : Qabs (x - mean b) / py_max (std b) 0.000001 == 0).
  { assert (x - mean b == 0) as -> by (rewrite Hx; ring). reflexivity. }
  case_Qltb 2 (Qabs (x - mean b) / py_max (std b) 0.000001);
    [lra | reflexivity].
Qed.

Lemma deviations_only bf f (value : string → pyval) (names : list string) :
  NoDup names →
  (∀ k, k ∈ names → k ≠ f →
        ∀ acc, deviation_step bf acc (k, value k) = Ok acc) →
  ∀ acc,
    deviations bf ((λ k, (k, value k)) <$> names) acc =
      if decide (f ∈ names) then deviation_step bf acc (f, value f)
      else Ok acc.
Proof.
  induction names as [| k names IH]; intros Hnd Hquiet acc.
  - rewrite decide_False by apply not_elem_of_nil. reflexivity.
  - apply NoDup_cons in Hnd as [Hk Hnd]. rewrite fmap_cons. cbn [deviations].
    assert (Hrest : ∀ acc1,
      deviations bf ((λ k, (k, value k)) <$> names) acc1 =
        if decide (f ∈ names) then deviation_step bf acc1 (f, value f)
        else Ok acc1).
    { apply IH; [exact Hnd |]. intros j Hj. apply Hquiet. by right. }
    destruct (decide (k = f)) as [-> | Hne].
    + rewrite decide_True by apply list_elem_of_here.
      transitivity (deviation_step bf acc (f, value f) ≫= Ok);
        [| apply bind_Ok_r].
      destruct (deviation_step bf acc (f, value f)); [| reflexivity]. run.
      rewrite Hrest, decide_False by exact Hk. reflexivity.
    + rewrite (Hquiet k) by (first [apply list_elem_of_here | exact Hne]).
      run. rewrite Hrest.
      destruct (decide (f ∈ names)) as [Hin | Hout].
      * rewrite decide_True by (by right). reflexivity.
      * rewrite decide_False; [reflexivity |].
        rewrite elem_of_cons. intros [-> | ?]; contradiction.
Qed.

Lemma deviation_step_flag bf :
  ∃ a, deviation_step bf (0, []) ("panic_gesture_triggered", VNum 1) = Ok a ∧
    a.1 == flag_deviation (bf !! "panic_gesture_triggered").
Proof.
  unfold deviation_step, flag_deviation. cbn [fst snd py_float].
  destruct (bf !! "panic_gesture_triggered") as [b |];
    [| eexists; split; reflexivity].
  run. rewrite py_div_floor. run. cbv zeta.
  destruct (Qltb 2 _); eexists; (split; [reflexivity |]); cbn [fst];
    [ring | reflexivity].
Qed.

Lemma indicators_with_panic (fs : features) (acc : tally) q1 q2 :
  features_get fs "panic_gesture_triggered" (VNum 0) = VNum 1 →
  features_get fs "location_familiarity" (VNum 1) = VNum q1 →
  features_get fs "tremor_signature" (VNum 1) = VNum q2 →
  ∃ a, indicators fs acc = Ok a ∧ a.1 == acc.1 + 5 + other_indicators fs.
Proof.
  intros Hp Hl Ht. unfold indicators, other_indicators, py_lt, below.
  rewrite Hp, Hl, Ht. cbn [py_float py_eq_1]. run.
  change (Qeq_bool 1 1) with true. cbv iota.
  destruct (py_eq_1 _), (Qltb q1 0.3), (Qltb q2 0.7);
    eexists; (split; [reflexivity |]); cbn [boost fst]; ring.
Qed.

Lemma normalize_5 (t : Q) : t == 5 → normalize t == 0.5.
Proof.
  intros Ht. unfold normalize, py_max, py_min.
  assert (Hd : t / 10 == 0.5) by (rewrite Ht; reflexivity).
  case_Qltb 1.0 (t / 10); [lra |].
  case_Qltb (t / 10) 0.05; lra.
Qed.

(** C6, as the code has it.  For a known identity, with the panic flag at 1
    and every other feature on its baseline mean, the total deviation is the
    5 of the panic indicator, plus the flag's own z-score
    |1 - mean| / max(std, 1e-6) whenever that exceeds 2, plus the weights of
    the other three indicators where the baseline means themselves trigger
    them.  It is exactly 5, and the score exactly 0.5, only when those two
    extra terms vanish. *)
Theorem panic_flag_deviation self uid now obs fs
    (Hknown : is_Some (user_profiles self !! uid))
    (Hfs : extract_features now obs = Ok fs)
    (Hpanic : assoc "panic_gesture_triggered" fs = Some (VNum 1))
    (Hmean : ∀ k v, k ≠ "panic_gesture_triggered" → assoc k fs = Some v →
               ∃ b x, stored_baseline self uid k = Some b ∧
                 v = VNum x ∧ x == mean b) :
  ∃ total facs,
    total_deviation self uid now obs = Some total ∧
    calculate_risk_score self uid now obs = Ok (Pair (normalize total) facs) ∧
    total == 5
             + flag_deviation (stored_baseline self uid "panic_gesture_triggered")
             + other_indicators fs ∧
    (flag_deviation (stored_baseline self uid "panic_gesture_triggered") == 0 →
     other_indicators fs == 0 →
     total == 5 ∧ normalize total == 0.5).
Proof.
  destruct Hknown as [p Hp].
  unfold total_deviation, calculate_risk_score, stored_baseline in *.
  rewrite Hp, Hfs in *. cbn [mbind option_bind] in *. run.
  pose proof (extract_features_keys _ _ _ Hfs) as Hkeys.
  assert (Hnum : ∀ k, k ∈ feature_names → k ≠ "panic_gesture_triggered" →
            ∃ b x, baseline_features p !! k = Some b ∧
              assoc k fs = Some (VNum x) ∧ x == mean b).
  { intros k Hk Hne. rewrite <- Hkeys in Hk.
    destruct (assoc_is_Some _ _ Hk) as [v Hv].
    destruct (Hmean k v Hne Hv) as (b & x & Hb & -> & Hx). eauto. }
  (* the deviation loop *)
  destruct (deviation_step_flag (baseline_features p)) as (a1 & Hstep & Ha1).
  assert (Hdev : deviations (baseline_features p) fs (0, []) = Ok a1).
  { rewrite (features_eta fs) by (rewrite Hkeys; apply feature_names_NoDup).
    rewrite Hkeys.
    rewrite (deviations_only _ "panic_gesture_triggered");
      [| apply feature_names_NoDup |].
    - rewrite decide_True by (unfold feature_names; solve_elem).
      rewrite Hpanic. exact Hstep.
    - intros k Hk Hne acc.
      destruct (Hnum k Hk Hne) as (b & x & Hb & -> & Hx).
      eapply deviation_step_at_mean; eauto. }
  (* the indicators *)
  destruct (Hnum "location_familiarity") as (b1 & q1 & _ & Hq1 & _);
    [unfold feature_names; solve_elem | discriminate |].
  destruct (Hnum "tremor_signature") as (b2 & q2 & _ & Hq2 & _);
    [unfold feature_names; solve_elem | discriminate |].
  destruct (indicators_with_panic fs a1 q1 q2) as (a2 & Hind & Ha2);
    [unfold features_get; by rewrite ?Hpanic, ?Hq1, ?Hq2 ..|].
  unfold accumulate. rewrite Hdev. run. rewrite Hind. run.
  assert (Htotal : a2.1 == 5
            + flag_deviation (baseline_features p !! "panic_gesture_triggered")
            + other_indicators fs) by (rewrite Ha2, Ha1; ring).
  exists a2.1, a2.2. split; [reflexivity |]. split; [reflexivity |].
  split; [exact Htotal |].
  intros Hflag Hothers.
  assert (a2.1 == 5) as H5 by (rewrite Htotal, Hflag, Hothers; reflexivity).
  split; [exact H5 | by apply normalize_5].
Qed.

(** Every entry of a concrete feature dict other than the panic flag sits
    on the mean stored for it. *)
Ltac on_baseline_means :=
  let k := fresh "k" in
  let v := fresh "v" in
  let Hk := fresh "Hk" in
  intros k v Hk; cbn [assoc];
  repeat (case_decide;
    [ first
        [ congruence
        | subst k; intros <-%(inj Some); eexists _, _;
          split; [vm_compute; reflexivity |];
          split; [reflexivity | vm_compute; reflexivity] ]
    | ]);
  discriminate.

Lemma panic_flag_deviation_witness :
  ∃ total facs,
    total_deviation (profiled "user_001" calm_history) "user_001"
      noon panic_session = Some total ∧
    calculate_risk_score (profiled "user_001" calm_history) "user_001"
      noon panic_session = Ok (Pair (normalize total) facs) ∧
    total == 5
             + flag_deviation
                 (stored_baseline (profiled "user_001" calm_history)
                    "user_001" "panic_gesture_triggered")
             + other_indicators panic_features ∧
    (flag_deviation
       (stored_baseline (profiled "user_001" calm_history)
          "user_001" "panic_gesture_triggered") == 0 →
     other_indicators panic_features == 0 →
     total == 5 ∧ normalize total == 0.5).
Proof.
  apply (panic_flag_deviation (profiled "user_001" calm_history) "user_001"
           noon panic_session panic_features).
  - apply (bool_decide_unpack _). vm_compute. exact I.
  - vm_compute. reflexivity.
  - vm_compute. reflexivity.
  - unfold panic_features. on_baseline_means.
Defined.

(** C6 refuted as stated.  The baseline is built from two sessions that
    never set the panic flag (mean 0, std 0 for the flag).  In
    [panic_session] the flag is 1 and every other feature sits on its
    baseline mean, yet the total deviation is 1000005, not 5 more than the 0
    of [calm_session]: the flag's own z-score 1 / 1e-6 is added by the
    deviation loop before the indicator adds its 5. *)
Lemma panic_flag_counterexample :
  extract_features noon panic_session = Ok panic_features ∧
  assoc "panic_gesture_triggered" panic_features = Some (VNum 1) ∧
  (∀ k v, k ≠ "panic_gesture_triggered" → assoc k panic_features = Some v →
     ∃ b x, stored_baseline (profiled "user_001" calm_history) "user_001" k
              = Some b ∧ v = VNum x ∧ x == mean b) ∧
  ∃ t0 t1,
    total_deviation (profiled "user_001" calm_history) "user_001"
      noon calm_session = Some t0 ∧
    total_deviation (profiled "user_001" calm_history) "user_001"
      noon panic_session = Some t1 ∧
    t0 == 0 ∧ t1 == 1000005 ∧
    ¬ t1 == t0 + 5 ∧
    ¬ t1 / 10 == t0 / 10 + 0.5.
Proof.
  split; [vm_compute; reflexivity |].
  split; [reflexivity |].
  split; [unfold panic_features; on_baseline_means |].
  eexists _, _.
  split; [vm_compute; reflexivity |].
  split; [vm_compute; reflexivity |].
  split; [vm_compute; reflexivity |].
  split; [vm_compute; reflexivity |].
  split; vm_compute; intros H; discriminate H.
Qed.

(** * Further properties of the profile store *)



Lemma assoc_is_Some_iff (fs : features) k : is_Some (assoc k fs) ↔ k ∈ fs.*1.
Proof.
  split; [| apply assoc_is_Some].
  intros Hsome. destruct (decide (k ∈ fs.*1)) as [Hin | Hout]; [exact Hin |].
  rewrite (assoc_None _ _ Hout) in Hsome. by destruct Hsome.
Qed.

Lemma collect_samples_keys (history : list (clock * pyval)) :
  ∀ samples samples',
  collect_samples history samples = Ok samples' →
  ∀ k, is_Some (samples' !! k) ↔
         is_Some (samples !! k) ∨ (history ≠ [] ∧ k ∈ feature_names).
Proof.
  induction history as [| [now session] history IH]; intros samples samples'.
  - intros <-%Ok_inj k. split; [by left | intros [? | [? _]]; done].
  - cbn [collect_samples].
    destruct (extract_features now session) as [fs |] eqn:Hfs; [| discriminate].
    run. intros Hrest k. rewrite (IH _ _ Hrest k).
    pose proof (extract_features_keys _ _ _ Hfs) as Hkeys.
    rewrite foldl_append_value
      by (rewrite Hkeys; apply feature_names_NoDup).
    rewrite <- Hkeys, <- assoc_is_Some_iff.
    destruct (assoc k fs) as [v |]; split.
    + intros _. right. split; [discriminate | eauto].
    + intros _. left. eauto.
    + intros [? | [_ [? ?]]]; [by left | discriminate].
    + intros [? | [_ [? ?]]]; [by left | discriminate].
Qed.



(** *** What [build_user_profile] raises *)







(** *** The order statistics of a constant sample *)











(** * Further properties of the risk score *)

Lemma normalize_wd (t t' : Q) : t == t' → normalize t == normalize t'.
Proof.
  intros Ht. apply Qle_antisym; apply normalize_mono; rewrite Ht; lra.
Qed.

(** The deviation loop only ever adds to the running total. *)
Lemma deviations_grow bf (fs : features) : ∀ acc acc' : tally,
  deviations bf fs acc = Ok acc' → acc.1 <= acc'.1.
Proof.
  induction fs as [| item fs IH]; intros acc acc'.
  - intros <-%Ok_inj. lra.
  - cbn [deviations].
    destruct (deviation_step bf acc item) as [acc1 |] eqn:Hstep;
      [| discriminate].
    run. intros Hrest. apply IH in Hrest.
    assert (acc.1 <= acc1.1); [| lra].
    revert Hstep. unfold deviation_step.
    destruct (bf !! item.1) as [b |]; [| intros <-%Ok_inj; lra].
    destruct (py_float item.2) as [value |]; [| discriminate]. run.
    rewrite py_div_floor. run.
    case_Qltb 2 (Qabs (value - mean b) / py_max (std b) 0.000001);
      intros <-%Ok_inj; cbn [fst]; lra.
Qed.

(** Without any baseline the deviation loop changes nothing. *)
Lemma deviations_blank (fs : features) (acc : tally) :
  deviations ∅ fs acc = Ok acc.
Proof.
  induction fs as [| item fs IH]; [reflexivity |].
  cbn [deviations]. unfold deviation_step at 1. rewrite lookup_empty. run.
  exact IH.
Qed.

(** The indicators add exactly the weight of those that fire. *)
Lemma indicators_weight (fs : features) (acc acc' : tally) :
  indicators fs acc = Ok acc' → acc'.1 == acc.1 + indicator_weight fs.
Proof.
  unfold indicators, indicator_weight, other_indicators, py_lt, below, boost.
  destruct (features_get fs "location_familiarity" (VNum 1)) as [q1 | | |];
    cbn [py_float]; run; try discriminate.
  destruct (features_get fs "tremor_signature" (VNum 1)) as [q2 | | |];
    cbn [py_float]; run; try discriminate.
  destruct (py_eq_1 _), (py_eq_1 _), (Qltb q1 0.3), (Qltb q2 0.7);
    intros <-%Ok_inj; cbn [fst]; ring.
Qed.

Lemma indicator_weight_nonneg (fs : features) : 0 <= indicator_weight fs.
Proof.
  unfold indicator_weight, other_indicators.
  destruct (py_eq_1 _), (py_eq_1 _), (below _ 0.3), (below _ 0.7); lra.
Qed.

(** The score and factors of a known identity, in terms of the loop total. *)
Lemma calculate_risk_score_inv self uid p now obs s facs :
  user_profiles self !! uid = Some p →
  calculate_risk_score self uid now obs = Ok (Pair s facs) →
  ∃ fs dev,
    extract_features now obs = Ok fs ∧
    deviations (baseline_features p) fs (0, []) = Ok dev ∧
    0 <= dev.1 ∧
    s == normalize (dev.1 + indicator_weight fs) ∧
    facs = (omap (deviation_factor (baseline_features p)) fs
              ++ indicator_factors fs)%list.
Proof.
  intros Hp. rewrite (calculate_risk_score_known _ _ _ _ _ Hp).
  destruct (extract_features now obs) as [fs |]; [| discriminate]. run.
  unfold accumulate.
  destruct (deviations (baseline_features p) fs (0, [])) as [dev |] eqn:Hdev;
    [| discriminate].
  run. destruct (indicators fs dev) as [acc |] eqn:Hind; [| discriminate].
  run. intros [= <- <-]. exists fs, dev. split; [reflexivity |].
  split; [exact Hdev |].
  split; [apply (deviations_grow _ _ _ _ Hdev) |].
  split; [apply normalize_wd, (indicators_weight _ _ _ Hind) |].
  rewrite (indicators_exact _ _ _ Hind), (deviations_exact _ _ _ _ Hdev).
  reflexivity.
Qed.

Lemma normalize_mid (t : Q) : 0.5 <= t → t <= 10 → normalize t == t / 10.
Proof.
  intros Hlo Hhi. unfold normalize, py_max, py_min.
  change (t / 10) with (t * (1 # 10)).
  case_Qltb 1.0 (t * (1 # 10)); [lra |].
  case_Qltb (t * (1 # 10)) 0.05; lra.
Qed.

Lemma omap_deviation_factor_blank (fs : features) :
  omap (deviation_factor ∅) fs = [].
Proof.
  induction fs as [| item fs IH]; [reflexivity |].
  cbn [omap list_omap]. unfold deviation_factor at 1. rewrite lookup_empty.
  exact IH.
Qed.

(** X5. An identity profiled without history is scored by the indicators
    alone: no deviation factor is ever reported for it, the factors are the
    messages of the indicators that fire, and the score is their total
    weight, divided by 10 and clamped. *)
Theorem blank_profile_scores {np : Numpy} self uid p self' now obs r
    (Hbuild : build_user_profile self uid [] = Ok (p, self'))
    (Hcall : calculate_risk_score self' uid now obs = Ok r) :
  ∃ fs s,
    extract_features now obs = Ok fs ∧
    r = Pair s (indicator_factors fs) ∧
    s == normalize (indicator_weight fs).
Proof.
  rewrite build_user_profile_nil in Hbuild. injection Hbuild as <- <-.
  assert (Hp : user_profiles
                 {| models := models self;
                    scalers := scalers self;
                    user_profiles :=
                      <[uid := blank_profile uid]> (user_profiles self);
                    risk_thresholds := risk_thresholds self |} !! uid
               = Some (blank_profile uid)) by apply lookup_insert_eq.
  destruct (calculate_risk_score_clamped _ _ _ _ _ (mk_is_Some _ _ Hp) Hcall)
    as (t & facs & ->).
  destruct (calculate_risk_score_inv _ _ _ _ _ _ _ Hp Hcall)
    as (fs & dev & Hfs & Hdev & _ & Hs & Hfacs).
  cbn [baseline_features blank_profile] in Hdev, Hfacs.
  rewrite deviations_blank in Hdev. apply Ok_inj in Hdev. subst dev.
  rewrite omap_deviation_factor_blank in Hfacs. cbn [app] in Hfacs.
  exists fs, (normalize t). split; [exact Hfs |].
  split; [by rewrite Hfacs |].
  rewrite Hs. apply normalize_wd. cbn [fst]. ring.
Qed.

Lemma blank_profile_scores_witness :
  ∃ fs s,
    extract_features noon panic_session = Ok fs ∧
    Pair 0.5 [Message "Panic gesture detected"]
      = Pair s (indicator_factors fs) ∧
    s == normalize (indicator_weight fs).
Proof.
  apply (blank_profile_scores init "user_001" (blank_profile "user_001")
           {| models := models init;
              scalers := scalers init;
              user_profiles :=
                <["user_001" := blank_profile "user_001"]> (user_profiles init);
              risk_thresholds := risk_thresholds init |}
           noon panic_session).
  - vm_compute. reflexivity.
  - vm_compute. reflexivity.
Defined.

(** X6. The indicators bound the score from below, whatever the baseline
    says: for a known identity the score is at least the clamped weight of
    the indicators that fire.  So a session with the panic flag set scores
    at least 0.5, and indicators weighing 10 or more give the maximal score
    1.0. *)
Theorem indicators_bound_score self uid now obs fs s facs
    (Hknown : is_Some (user_profiles self !! uid))
    (Hfs : extract_features now obs = Ok fs)
    (Hcall : calculate_risk_score self uid now obs = Ok (Pair s facs)) :
  normalize (indicator_weight fs) <= s ∧
  (py_eq_1 (features_get fs "panic_gesture_triggered" (VNum 0)) = true →
     0.5 <= s) ∧
  (10 <= indicator_weight fs → s == 1.0).
Proof.
  destruct Hknown as [p Hp].
  destruct (calculate_risk_score_inv _ _ _ _ _ _ _ Hp Hcall)
    as (fs' & dev & Hfs' & _ & Hdev & Hs & _).
  assert (fs' = fs) as -> by congruence.
  assert (Hlow : normalize (indicator_weight fs) <= s).
  { rewrite Hs. apply normalize_mono. lra. }
  split; [exact Hlow |]. split.
  - intros Hpanic.
    assert (5 <= indicator_weight fs).
    { unfold indicator_weight. rewrite Hpanic.
      pose proof (indicator_weight_nonneg fs) as Hw.
      unfold indicator_weight, other_indicators in *.
      destruct (py_eq_1 _), (py_eq_1 _), (below _ 0.3), (below _ 0.7); lra. }
    pose proof (normalize_mono 5 _ H) as H5.
    rewrite (normalize_5 5) in H5 by reflexivity. lra.
  - intros Hw.
    pose proof (normalize_mono 10 _ Hw) as H10.
    change (normalize 10) with 1.0 in H10.
    pose proof (normalize_bounds (dev.1 + indicator_weight fs)) as [_ Hup].
    rewrite <- Hs in Hup. apply Qle_antisym; lra.
Qed.

Lemma indicators_bound_score_witness :
  normalize (indicator_weight panic_features) <= 1.0 ∧
  (py_eq_1 (features_get panic_features "panic_gesture_triggered" (VNum 0))
     = true → 0.5 <= 1.0) ∧
  (10 <= indicator_weight panic_features → 1.0 == 1.0).
Proof.
  apply (indicators_bound_score (profiled "user_001" calm_history) "user_001"
           noon panic_session panic_features 1.0
           [ Deviation "panic_gesture_triggered" (2000000 # 2);
             Message "Panic gesture detected" ]).
  - apply (bool_decide_unpack _). vm_compute. exact I.
  - vm_compute. reflexivity.
  - vm_compute. reflexivity.
Defined.

(** * Further properties of classification *)

(** Everything a returned [RiskAssessment] was assembled from. *)
Lemma classify_user_inv self uid now1 now2 timestamp obs ra :
  classify_user self uid now1 now2 timestamp obs = Ok ra →
  ∃ fs1 x rf iso s facs,
    extract_features now1 obs = Ok fs1 ∧
    predict_random_forest self x = Ok rf ∧
    predict_isolation_forest self x = Ok iso ∧
    calculate_risk_score self uid now2 obs = Ok (Pair s facs) ∧
    ra = {| ra_user_id := uid;
            ra_classification := (final_classification (risk_thresholds self) s).1;
            ra_action := (final_classification (risk_thresholds self) s).2;
            ra_risk_score := s;
            ra_risk_factors := facs;
            ra_model_predictions :=
              {| by_random_forest := rf; by_isolation_forest := iso |};
            ra_timestamp := timestamp |}.
Proof.
  unfold classify_user.
  destruct (extract_features now1 obs) as [fs |]; [| discriminate]. run.
  destruct (match scalers self with
            | Some scaler => transform scaler (map snd fs)
            | None => Ok (map snd fs) end) as [x |]; [| discriminate].
  run.
  destruct (predict_random_forest self x) as [rf |] eqn:Hrf; [| discriminate].
  run.
  destruct (predict_isolation_forest self x) as [iso |] eqn:Hiso;
    [| discriminate].
  run.
  destruct (calculate_risk_score self uid now2 obs) as [[s0 | s facs] |];
    try discriminate.
  cbn [unpack]. run. intros <-%Ok_inj.
  exists fs, x, rf, iso, s, facs. auto 10.
Qed.

Lemma final_classification_action (t : thresholds) (s : Q) :
  (final_classification t s).2 =
    recommended_action (final_classification t s).1.
Proof.
  unfold final_classification.
  destruct (Qle_bool (high t) s), (Qle_bool (medium t) s),
    (Qle_bool (low t) s); reflexivity.
Qed.

(** X7. What a returned [RiskAssessment] holds: the identity and timestamp
    it was called with, the score and factors of [calculate_risk_score] on
    the same observation, the action string that belongs to its
    classification, and a prediction for exactly the estimators that are
    fitted.  In particular a record is only ever returned for an identity
    with a stored profile. *)
Theorem classify_user_record self uid now1 now2 timestamp obs ra
    (Hcall : classify_user self uid now1 now2 timestamp obs = Ok ra) :
  ra_user_id ra = uid ∧
  ra_timestamp ra = timestamp ∧
  calculate_risk_score self uid now2 obs =
    Ok (Pair (ra_risk_score ra) (ra_risk_factors ra)) ∧
  is_Some (user_profiles self !! uid) ∧
  ra_action ra = recommended_action (ra_classification ra) ∧
  (is_Some (by_random_forest (ra_model_predictions ra)) ↔
     is_Some (random_forest (models self))) ∧
  (is_Some (by_isolation_forest (ra_model_predictions ra)) ↔
     is_Some (isolation_forest (models self))).
Proof.
  destruct (classify_user_inv _ _ _ _ _ _ _ Hcall)
    as (fs1 & x & rf & iso & s & facs & _ & Hrf & Hiso & Hscore & ->).
  cbn. split; [reflexivity |]. split; [reflexivity |].
  split; [exact Hscore |]. split.
  { destruct (user_profiles self !! uid) as [p |] eqn:Hp; [eauto |].
    rewrite (calculate_risk_score_unknown _ _ _ _ Hp) in Hscore.
    discriminate. }
  split; [apply final_classification_action |]. split.
  - revert Hrf. unfold predict_random_forest.
    destruct (random_forest (models self)) as [m |].
    + destruct (rf_predict m x); [| discriminate]. run.
      destruct (rf_predict_proba m x); [| discriminate]. run.
      intros <-%Ok_inj. split; eauto.
    + intros <-%Ok_inj. split; intros [? ?]; discriminate.
  - revert Hiso. unfold predict_isolation_forest.
    destruct (isolation_forest (models self)) as [m |].
    + destruct (if_predict m x); [| discriminate]. run.
      destruct (if_decision_function m x); [| discriminate]. run.
      intros <-%Ok_inj. split; eauto.
    + intros <-%Ok_inj. split; intros [? ?]; discriminate.
Qed.

Lemma classify_user_record_witness :
  let ra := panic_assessment "2025-01-01T12:00:00" in
  ra_user_id ra = "user_001" ∧
  ra_timestamp ra = "2025-01-01T12:00:00" ∧
  calculate_risk_score (profiled "user_001" calm_history) "user_001" noon
    panic_session = Ok (Pair (ra_risk_score ra) (ra_risk_factors ra)) ∧
  is_Some (user_profiles (profiled "user_001" calm_history) !! "user_001") ∧
  ra_action ra = recommended_action (ra_classification ra) ∧
  (is_Some (by_random_forest (ra_model_predictions ra)) ↔
     is_Some (random_forest (models (profiled "user_001" calm_history)))) ∧
  (is_Some (by_isolation_forest (ra_model_predictions ra)) ↔
     is_Some (isolation_forest (models (profiled "user_001" calm_history)))).
Proof.
  apply (classify_user_record (profiled "user_001" calm_history) "user_001"
           noon noon "2025-01-01T12:00:00" panic_session).
  vm_compute. reflexivity.
Defined.

(** X8. The anomaly detector's part of a returned [RiskAssessment] is
    always in range: its verdict is 0 or 1, its confidence lies in [0, 1],
    whatever the fitted detector answers. *)
Theorem anomaly_prediction_in_range self uid now1 now2 timestamp obs ra pr
    (Hcall : classify_user self uid now1 now2 timestamp obs = Ok ra)
    (Hpr : by_isolation_forest (ra_model_predictions ra) = Some pr) :
  (verdict pr = 0 ∨ verdict pr = 1) ∧
  0 <= confidence pr ∧ confidence pr <= 1.
Proof.
  destruct (classify_user_inv _ _ _ _ _ _ _ Hcall)
    as (fs1 & x & rf & iso & s & facs & _ & _ & Hiso & _ & ->).
  cbn in Hpr. subst iso. revert Hiso. unfold predict_isolation_forest.
  destruct (isolation_forest (models self)) as [m |]; [| discriminate].
  destruct (if_predict m x) as [raw |]; [| discriminate]. run.
  destruct (if_decision_function m x) as [score |]; [| discriminate]. run.
  intros Heq. apply Ok_inj, (inj Some) in Heq. subst pr. cbn [verdict confidence].
  split; [destruct (Qeq_bool raw 1); auto |].
  unfold py_max, py_min.
  case_Qltb 1.0 (0.5 + score / 2); case_Qltb 1.0 0.0; try lra.
  case_Qltb (0.5 + score / 2) 0.0; lra.
Qed.

Lemma anomaly_prediction_in_range_witness :
  (verdict {| verdict := 0; confidence := 70 # 200 |} = 0 ∨
   verdict {| verdict := 0; confidence := 70 # 200 |} = 1) ∧
  0 <= confidence {| verdict := 0; confidence := 70 # 200 |} ∧
  confidence {| verdict := 0; confidence := 70 # 200 |} <= 1.
Proof.
  eapply (anomaly_prediction_in_range
            (guarded (profiled "user_001" calm_history)) "user_001"
            noon noon "2025-01-01T12:00:00" calm_session).
  - vm_compute. reflexivity.
  - reflexivity.
Defined.

Lemma score_at_least_indicators self uid now obs fs s facs :
  is_Some (user_profiles self !! uid) →
  extract_features now obs = Ok fs →
  calculate_risk_score self uid now obs = Ok (Pair s facs) →
  normalize (indicator_weight fs) <= s.
Proof.
  intros [p Hp] Hfs Hcall.
  destruct (calculate_risk_score_inv _ _ _ _ _ _ _ Hp Hcall)
    as (fs' & dev & Hfs' & _ & Hdev & Hs & _).
  assert (fs' = fs) as -> by congruence.
  rewrite Hs. apply normalize_mono. lra.
Qed.

Lemma panic_weight (fs : features) :
  py_eq_1 (features_get fs "panic_gesture_triggered" (VNum 0)) = true →
  5 <= indicator_weight fs.
Proof.
  intros Hpanic. unfold indicator_weight, other_indicators. rewrite Hpanic.
  cbv iota.
  destruct (py_eq_1 (features_get fs "direct_to_sensitive" (VNum 0))),
    (below _ 0.3), (below _ 0.7); lra.
Qed.

(** X9. Under the thresholds of [__init__] the indicators alone decide a
    floor for the classification: a session with the panic flag set is
    never classified ALLOW, and indicators weighing 8 or more (panic with
    direct sensitive access, panic with a tremor mismatch, ...) give
    BLOCK. *)
Theorem classify_user_indicators self uid now1 now2 timestamp obs fs ra
    (Hthresholds : risk_thresholds self = risk_thresholds init)
    (Hfs : extract_features now2 obs = Ok fs)
    (Hcall : classify_user self uid now1 now2 timestamp obs = Ok ra) :
  (py_eq_1 (features_get fs "panic_gesture_triggered" (VNum 0)) = true →
     ra_classification ra ≠ ALLOW) ∧
  (8 <= indicator_weight fs → ra_classification ra = BLOCK).
Proof.
  destruct (classify_user_inv _ _ _ _ _ _ _ Hcall)
    as (fs1 & x & rf & iso & s & facs & _ & _ & _ & Hscore & ->).
  cbn [ra_classification].
  assert (Hknown : is_Some (user_profiles self !! uid)).
  { destruct (user_profiles self !! uid) as [p |] eqn:Hp; [eauto |].
    rewrite (calculate_risk_score_unknown _ _ _ _ Hp) in Hscore.
    discriminate. }
  pose proof (score_at_least_indicators _ _ _ _ _ _ _ Hknown Hfs Hscore) as Hlow.
  pose proof (final_classification_chain (risk_thresholds self) s) as Hchain.
  rewrite Hthresholds in *. cbv zeta in Hchain.
  change (high (risk_thresholds init)) with 0.8 in Hchain.
  change (medium (risk_thresholds init)) with 0.6 in Hchain.
  change (low (risk_thresholds init)) with 0.3 in Hchain.
  destruct Hchain as (Hb & Hc & Hm & _).
  split.
  - intros Hpanic. apply panic_weight in Hpanic.
    pose proof (normalize_mono 5 _ Hpanic) as H5.
    rewrite (normalize_5 5) in H5 by reflexivity.
    destruct (Qlt_le_dec s 0.8) as [Hs8 |]; [| rewrite Hb by lra; discriminate].
    destruct (Qlt_le_dec s 0.6) as [Hs6 |];
      [| rewrite Hc by lra; discriminate].
    rewrite Hm by lra. discriminate.
  - intros Hw. pose proof (normalize_mono 8 _ Hw) as H8.
    change (normalize 8) with 0.8 in H8. apply Hb. lra.
Qed.

Lemma classify_user_indicators_witness :
  (py_eq_1 (features_get duress_features "panic_gesture_triggered" (VNum 0))
     = true →
     ra_classification (duress_assessment "2025-01-01T12:00:00") ≠ ALLOW) ∧
  (8 <= indicator_weight duress_features →
     ra_classification (duress_assessment "2025-01-01T12:00:00") = BLOCK).
Proof.
  apply (classify_user_indicators (profiled "user_001" calm_history)
           "user_001" noon noon "2025-01-01T12:00:00" duress_session).
  - vm_compute. reflexivity.
  - vm_compute. reflexivity.
  - vm_compute. reflexivity.
Defined.



(** * Further properties of feature extraction *)

(** X11. [extract_features] reads nine top-level keys and nothing else: a
    key outside them, such as the ['is_legitimate'] label or ['user_id'],
    has no influence on the features, hence none on the risk score or on
    the classification. *)
Theorem extract_features_ignores now (d : gmap string pyval) k v
    (Hk : k ∉ observation_keys) :
  extract_features now (VDict (<[k := v]> d)) = extract_features now (VDict d) ∧
  (∀ self uid,
     calculate_risk_score self uid now (VDict (<[k := v]> d)) =
     calculate_risk_score self uid now (VDict d)) ∧
  (∀ self uid now1 timestamp,
     classify_user self uid now1 now timestamp (VDict (<[k := v]> d)) =
     classify_user self uid now1 now timestamp (VDict d)).
Proof.
  assert (Hne : ∀ key, key ∈ observation_keys →
            <[k := v]> d !! key = d !! key).
  { intros key Hkey. apply lookup_insert_ne. intros ->. contradiction. }
  assert (Hextract : ∀ now',
    extract_features now' (VDict (<[k := v]> d)) =
    extract_features now' (VDict d)).
  { intros now'. rewrite !extract_features_documented.
    cbv beta iota zeta delta
      [well_formed documented_features signal_groups documented_defaults
       documented_value field_of group_ok forallb map take drop app fst snd
       clock_features].
    rewrite !Hne by (unfold observation_keys; solve_elem). reflexivity. }
  split; [apply Hextract |]. split.
  - intros self uid. unfold calculate_risk_score. by rewrite Hextract.
  - intros self uid now1 timestamp. unfold classify_user, calculate_risk_score.
    by rewrite !Hextract.
Qed.

Lemma extract_features_ignores_witness :
  extract_features noon (VDict (<["is_legitimate" := VNum 0]> ∅)) =
    extract_features noon (VDict ∅) ∧
  (∀ self uid,
     calculate_risk_score self uid noon (VDict (<["is_legitimate" := VNum 0]> ∅)) =
     calculate_risk_score self uid noon (VDict ∅)) ∧
  (∀ self uid now1 timestamp,
     classify_user self uid now1 noon timestamp
       (VDict (<["is_legitimate" := VNum 0]> ∅)) =
     classify_user self uid now1 noon timestamp (VDict ∅)).
Proof.
  apply (extract_features_ignores noon ∅ "is_legitimate" (VNum 0)).
  apply (bool_decide_unpack _). vm_compute. exact I.
Defined.

(** * Properties of the generated sample data *)

Lemma legitimate_session_numeric draw i now :
  numeric_session (now, (legitimate_session draw i).1) = true.
Proof. vm_compute. reflexivity. Qed.

Lemma fraudulent_session_numeric draw i now :
  numeric_session (now, (fraudulent_session draw i).1) = true.
Proof. vm_compute. reflexivity. Qed.

Lemma legitimate_session_label draw i :
  subscript (legitimate_session draw i).1 "is_legitimate" = Some (VNum 1).
Proof. vm_compute. reflexivity. Qed.

Lemma fraudulent_session_label draw i :
  subscript (fraudulent_session draw i).1 "is_legitimate" = Some (VNum 0).
Proof. vm_compute. reflexivity. Qed.

Lemma legitimate_session_calm draw i now :
  feature_is "panic_gesture_triggered" (VNum 0)
    (now, (legitimate_session draw i).1) ∧
  feature_is "decoy_interaction_normal" (VNum 1)
    (now, (legitimate_session draw i).1).
Proof.
  split; (eexists; split; [vm_compute; reflexivity | reflexivity]).
Qed.

(** A generating loop appends [count] sessions, each one an output of the
    loop body. *)
Lemma append_sessions_block (P : pyval → Prop) (make : rand pyval) :
  (∀ draw i, P (make draw i).1) →
  ∀ count sample_data draw i,
  ∃ block,
    (append_sessions count make sample_data draw i).1
      = (sample_data ++ block)%list ∧
    Forall P block ∧ length block = N.to_nat count.
Proof.
  intros Hmake count sample_data draw i. unfold append_sessions.
  apply (N.iter_ind _ (append_session make draw) (sample_data, i)
           (λ n st, ∃ block, st.1 = (sample_data ++ block)%list ∧
                      Forall P block ∧ length block = N.to_nat n)).
  - exists []. cbn [fst]. rewrite app_nil_r. auto.
  - intros n st (block & Hst & Hall & Hlen).
    exists (block ++ [(make draw st.2).1])%list.
    unfold append_session. cbn [fst]. rewrite Hst, <- app_assoc.
    split; [reflexivity |]. split.
    + apply Forall_app. split; [exact Hall | by repeat constructor].
    + rewrite length_app, Hlen, N2Nat.inj_succ. cbn [length]. lia.
Qed.

Lemma legitimate_sessions_blocks (kept dropped : list pyval) :
  Forall (λ s, subscript s "is_legitimate" = Some (VNum 1)) kept →
  Forall (λ s, subscript s "is_legitimate" = Some (VNum 0)) dropped →
  legitimate_sessions (kept ++ dropped) = Some kept.
Proof.
  intros Hkept Hdropped. induction Hkept as [| s kept Hs _ IH].
  - cbn [app]. induction Hdropped as [| s dropped Hs _ IH]; [reflexivity |].
    cbn [legitimate_sessions]. rewrite Hs. cbn. rewrite IH. reflexivity.
  - cbn [app legitimate_sessions]. rewrite Hs. cbn. rewrite IH. reflexivity.
Qed.

(** The two blocks of the generated data. *)
Lemma generate_sample_data_blocks (P1 P0 : pyval → Prop) draw i :
  (∀ draw i, P1 (legitimate_session draw i).1) →
  (∀ draw i, P0 (fraudulent_session draw i).1) →
  ∃ legit fraud,
    (generate_sample_data draw i).1 = (legit ++ fraud)%list ∧
    Forall P1 legit ∧ length legit = N.to_nat 100000 ∧
    Forall P0 fraud ∧ length fraud = N.to_nat 10000.
Proof.
  intros H1 H0. unfold generate_sample_data.
  cbv beta delta [mbind rand_bind]. cbv zeta.
  destruct (append_sessions_block P1 legitimate_session H1 100000 [] draw i)
    as (legit & -> & Hlegit & Hn1).
  destruct (append_sessions_block P0 fraudulent_session H0 10000
              ([] ++ legit)%list draw
              (append_sessions 100000 legitimate_session [] draw i).2)
    as (fraud & -> & Hfraud & Hn0).
  exists legit, fraud. cbn [app]. auto.
Qed.

(** X12. Every session of the generated sample data is a well-formed
    observation all of whose extracted features are numbers, whatever the
    random draws are: [extract_features] never raises on generated data. *)
Theorem generate_sample_data_numeric draw i now :
  Forall (λ s, numeric_session (now, s) = true)
         (generate_sample_data draw i).1.
Proof.
  destruct (generate_sample_data_blocks
              (λ s, numeric_session (now, s) = true)
              (λ s, numeric_session (now, s) = true) draw i)
    as (legit & fraud & -> & Hlegit & _ & Hfraud & _).
  - intros. apply legitimate_session_numeric.
  - intros. apply fraudulent_session_numeric.
  - apply Forall_app. auto.
Qed.

(** X13. The generated sample data are 100000 sessions labelled legitimate
    followed by 10000 labelled fraudulent, and the demo's selection of the
    sessions with [is_legitimate == 1] returns exactly the first block. *)
Theorem generate_sample_data_labels draw i :
  ∃ legit fraud,
    (generate_sample_data draw i).1 = (legit ++ fraud)%list ∧
    length legit = N.to_nat 100000 ∧
    length fraud = N.to_nat 10000 ∧
    Forall (λ s, subscript s "is_legitimate" = Some (VNum 1)) legit ∧
    Forall (λ s, subscript s "is_legitimate" = Some (VNum 0)) fraud ∧
    legitimate_sessions (generate_sample_data draw i).1 = Some legit.
Proof.
  destruct (generate_sample_data_blocks
              (λ s, subscript s "is_legitimate" = Some (VNum 1))
              (λ s, subscript s "is_legitimate" = Some (VNum 0)) draw i)
    as (legit & fraud & Hdata & Hlegit & Hn1 & Hfraud & Hn0).
  - intros. apply legitimate_session_label.
  - intros. apply fraudulent_session_label.
  - exists legit, fraud. rewrite Hdata.
    auto 10 using legitimate_sessions_blocks.
Qed.

(** *** The demo's profile *)

Lemma Forall_timed (P : clock * pyval → Prop) (sessions : list pyval) :
  Forall (λ s, ∀ now, P (now, s)) sessions →
  ∀ clocks, Forall P (timed clocks sessions).
Proof.
  unfold timed. induction 1 as [| s sessions Hs _ IH]; intros clocks.
  - constructor.
  - rewrite imap_cons. constructor; [apply Hs | apply IH].
Qed.

Lemma forallb_Forall_true {A} (f : A → bool) (l : list A) :
  Forall (λ x, f x = true) l → forallb f l = true.
Proof.
  induction 1 as [| x l Hx _ IH]; [reflexivity |].
  cbn [forallb]. by rewrite Hx, IH.
Qed.

(** What a profile built from a non-empty numeric history holds, with the
    unrounded statistics. *)
Lemma build_user_profile_summary self uid history :
  history ≠ [] →
  forallb numeric_session history = true →
  ∃ p self',
    build_user_profile (np := exact_numpy) self uid history = Ok (p, self') ∧
    user_profiles self' !! uid = Some p ∧
    (∀ k, is_Some (baseline_features p !! k) ↔ k ∈ feature_names) ∧
    (∀ f v, Forall (feature_is f (VNum v)) history →
       ∃ b, baseline_features p !! f = Some b ∧ mean b == v ∧ std b == 0).
Proof.
  intros Hne Hnum.
  destruct (collect_samples_numeric history ∅ Hnum) as (samples & Hc & Hs);
    [apply map_Forall_empty |].
  destruct (build_user_profile_numeric self uid history Hnum)
    as (samples' & Hc' & Hbuild).
  assert (samples' = samples) as -> by congruence.
  eexists _, _. split; [exact Hbuild |].
  split; [apply lookup_insert_eq |]. cbn [baseline_features]. split.
  - intros k. rewrite lookup_omap.
    transitivity (is_Some (samples !! k)).
    + destruct (samples !! k) as [values |] eqn:Hk; cbn.
      * split; [eauto |]. intros _. apply statistics_numbers, (Hs _ _ Hk).
      * split; intros [? ?]; discriminate.
    + rewrite (collect_samples_keys _ _ _ Hc k), lookup_empty.
      split; [intros [[? ?] | [_ ?]]; done | intros ?; by right].
  - intros f v Hconst.
    pose proof (collect_samples_constant _ _ _ _ _ Hc Hconst) as Hsample.
    destruct history as [| cs history]; [contradiction |].
    rewrite lookup_empty in Hsample. cbn [default app] in Hsample.
    destruct (exact_statistics_replicate (length (cs :: history)) v)
      as (b & Hstat & Hb); [simpl; lia |].
    exists b. split; [| exact Hb]. rewrite lookup_omap, Hsample. exact Hstat.
Qed.

(** X14. The demo's first steps always go through: whatever the random
    draws and the clock readings, selecting the legitimate sessions of the
    generated data and building the profile of ['user_001'] from them
    raises nothing and stores a profile with a baseline for each of the 24
    features.  No legitimate session sets the panic flag or fails the
    decoy, so these two baselines are degenerate: mean 0 and 1, std 0
    (samples of 0s and of 1s, on which [np.mean] and [np.std] do not
    round: the statistics are the unrounded ones). *)
Theorem demo_profile draw i clocks :
  ∃ legit p self',
    legitimate_sessions (generate_sample_data draw i).1 = Some legit ∧
    build_user_profile (np := exact_numpy) init "user_001"
      (timed clocks legit) = Ok (p, self') ∧
    user_profiles self' !! "user_001" = Some p ∧
    (∀ k, is_Some (baseline_features p !! k) ↔ k ∈ feature_names) ∧
    (∃ b, baseline_features p !! "panic_gesture_triggered" = Some b ∧
       mean b == 0 ∧ std b == 0) ∧
    (∃ b, baseline_features p !! "decoy_interaction_normal" = Some b ∧
       mean b == 1 ∧ std b == 0).
Proof.
  destruct (generate_sample_data_blocks
              (λ s, subscript s "is_legitimate" = Some (VNum 1) ∧
                    ∀ now, numeric_session (now, s) = true ∧
                      feature_is "panic_gesture_triggered" (VNum 0) (now, s) ∧
                      feature_is "decoy_interaction_normal" (VNum 1) (now, s))
              (λ s, subscript s "is_legitimate" = Some (VNum 0)) draw i)
    as (legit & fraud & Hdata & Hlegit & Hn1 & Hfraud & _).
  { intros draw' i'. split; [apply legitimate_session_label |].
    intros now. split; [apply legitimate_session_numeric |].
    apply legitimate_session_calm. }
  { intros. apply fraudulent_session_label. }
  assert (Hsel : legitimate_sessions (generate_sample_data draw i).1
                 = Some legit).
  { rewrite Hdata. apply legitimate_sessions_blocks; [| exact Hfraud].
    eapply Forall_impl; [exact Hlegit |]. intros s [Hs _]. exact Hs. }
  assert (Hne : timed clocks legit ≠ []).
  { intros Hnil. apply (f_equal length) in Hnil.
    unfold timed in Hnil. rewrite length_imap, Hn1 in Hnil.
    cbn [length] in Hnil. lia. }
  assert (Hnum : forallb numeric_session (timed clocks legit) = true).
  { apply forallb_Forall_true, Forall_timed.
    eapply Forall_impl; [exact Hlegit |]. intros s [_ Hs] now. apply Hs. }
  destruct (build_user_profile_summary init "user_001" _ Hne Hnum)
    as (p & self' & Hbuild & Hp & Hkeys & Hconst).
  exists legit, p, self'. split; [exact Hsel |]. split; [exact Hbuild |].
  split; [exact Hp |]. split; [exact Hkeys |]. split; apply Hconst.
  - apply Forall_timed. eapply Forall_impl; [exact Hlegit |].
    intros s [_ Hs] now. apply Hs.
  - apply Forall_timed. eapply Forall_impl; [exact Hlegit |].
    intros s [_ Hs] now. apply Hs.
Qed.

(** * A single outlier *)

Lemma deviation_step_weight bf (acc acc1 : tally) item :
  deviation_step bf acc item = Ok acc1 →
  acc1.1 == acc.1 + factor_weight (deviation_factor bf item) ∧
  0 <= factor_weight (deviation_factor bf item).
Proof.
  unfold deviation_step, deviation_factor, factor_weight.
  destruct (bf !! item.1) as [b |];
    [| intros <-%Ok_inj; split; [ring | lra]].
  destruct item.2 as [value | | |]; cbn [py_float]; run; try discriminate.
  rewrite py_div_floor. run. cbv zeta.
  case_Qltb 2 (Qabs (value - mean b) / py_max (std b) 0.000001);
    intros <-%Ok_inj; cbn [fst]; split; (ring || lra).
Qed.

Lemma deviations_cover bf (fs : features) : ∀ (acc acc' : tally) k z,
  deviations bf fs acc = Ok acc' →
  Deviation k z ∈ omap (deviation_factor bf) fs →
  acc.1 + z <= acc'.1.
Proof.
  induction fs as [| item fs IH]; intros acc acc' k z.
  - intros _ Hin. by apply elem_of_nil in Hin.
  - cbn [deviations omap list_omap].
    destruct (deviation_step bf acc item) as [acc1 |] eqn:Hstep;
      [| discriminate].
    run. intros Hrest Hin.
    destruct (deviation_step_weight _ _ _ _ Hstep) as [Hacc1 Hpos].
    pose proof (deviations_grow _ _ _ _ Hrest) as Hgrow.
    destruct (deviation_factor bf item) as [d |] eqn:Hd.
    + apply elem_of_cons in Hin as [<- | Hin].
      * cbn [factor_weight] in Hacc1. lra.
      * pose proof (IH _ _ _ _ Hrest Hin). lra.
    + pose proof (IH _ _ _ _ Hrest Hin). lra.
Qed.

Lemma indicator_factors_messages (fs : features) k z :
  Deviation k z ∉ indicator_factors fs.
Proof.
  unfold indicator_factors.
  destruct (py_eq_1 _), (py_eq_1 _), (below _ 0.3), (below _ 0.7);
    cbn [app]; intros Hin;
    repeat (apply elem_of_cons in Hin as [Hin | Hin]; [discriminate Hin |]);
    by apply elem_of_nil in Hin.
Qed.

(** X15. One outlier is enough.  Every deviation the risk factors report
    counts in full: for a known identity the score is at least the clamped
    tenth of any reported z-score, so a single feature 10 or more floored
    standard deviations from its mean gives the maximal score 1.0, however
    ordinary the rest of the session is. *)
Theorem single_outlier_dominates self uid now obs s facs k z
    (Hknown : is_Some (user_profiles self !! uid))
    (Hcall : calculate_risk_score self uid now obs = Ok (Pair s facs))
    (Hin : Deviation k z ∈ facs) :
  2 < z ∧ normalize z <= s ∧ (10 <= z → s == 1.0).
Proof.
  destruct Hknown as [p Hp].
  destruct (calculate_risk_score_inv _ _ _ _ _ _ _ Hp Hcall)
    as (fs & dev & Hfs & Hdev & _ & Hs & ->).
  apply elem_of_app in Hin as [Hin | Hin];
    [| by apply indicator_factors_messages in Hin].
  pose proof (deviations_cover _ _ _ _ _ _ Hdev Hin) as Hcover.
  pose proof (indicator_weight_nonneg fs) as Hw. cbn [fst] in Hcover.
  assert (Hz : 2 < z).
  { apply list_elem_of_omap in Hin as (item & _ & Hitem).
    revert Hitem. unfold deviation_factor.
    destruct (baseline_features p !! item.1) as [b |]; [| discriminate].
    destruct item.2 as [value | | |]; try discriminate. cbv zeta.
    case_Qltb 2 (Qabs (value - mean b) / py_max (std b) 0.000001);
      [| discriminate].
    intros [= _ <-]. assumption. }
  assert (Hlow : normalize z <= s).
  { rewrite Hs. apply normalize_mono. lra. }
  split; [exact Hz |]. split; [exact Hlow |].
  intros H10. pose proof (normalize_mono 10 _ H10) as Hn.
  change (normalize 10) with 1.0 in Hn.
  pose proof (normalize_bounds (dev.1 + indicator_weight fs)) as [_ Hup].
  rewrite <- Hs in Hup. apply Qle_antisym; lra.
Qed.

Lemma single_outlier_dominates_witness :
  2 < (2000000 # 2) ∧ normalize (2000000 # 2) <= 1.0 ∧
  (10 <= (2000000 # 2) → 1.0 == 1.0).
Proof.
  apply (single_outlier_dominates (profiled "user_001" calm_history)
           "user_001" noon panic_session 1.0
           [ Deviation "panic_gesture_triggered" (2000000 # 2);
             Message "Panic gesture detected" ]
           "panic_gesture_triggered").
  - apply (bool_decide_unpack _). vm_compute. exact I.
  - vm_compute. reflexivity.
  - apply list_elem_of_here.
Defined.

(** * The clock in feature extraction *)

(** X16. The extraction instant matters for two features only: whether
    [extract_features] raises does not depend on the clock, and two
    extractions of one observation at different instants agree on every
    feature except [hour_of_day] and [day_of_week]. *)
Theorem extract_features_clock now now' obs fs
    (Hfs : extract_features now obs = Ok fs) :
  ∃ fs',
    extract_features now' obs = Ok fs' ∧
    ∀ k, k ∉ clock_feature_names → assoc k fs' = assoc k fs.
Proof.
  rewrite extract_features_documented in *.
  destruct (well_formed obs); [| discriminate].
  apply Ok_inj in Hfs. subst fs. eexists. split; [reflexivity |].
  intros k Hk.
  assert (k ≠ "hour_of_day" ∧ k ≠ "day_of_week") as [Hh Hd].
  { split; intros ->; apply Hk; unfold clock_feature_names; solve_elem. }
  cbv beta iota zeta delta
    [documented_features documented_defaults documented_value map take drop
     app fst snd clock_features].
  cbn [assoc].
  repeat (case_decide; [first [reflexivity | congruence] |]).
  reflexivity.
Qed.

Lemma extract_features_clock_witness :
  ∃ fs',
    extract_features midnight panic_session = Ok fs' ∧
    ∀ k, k ∉ clock_feature_names → assoc k fs' = assoc k panic_features.
Proof.
  apply (extract_features_clock noon midnight panic_session panic_features).
  vm_compute. reflexivity.
Defined.
